(** * A todo application: users, tasks and their service layer

    Shallow embedding of [app/models.py], [app/task_service.py],
    [app/user_service.py] and the handlers of [app/todo_app.py].  A
    database is a pair of tables, every service method runs inside one
    session scope, and a method either returns a value or raises.
    Timestamps are integers (microseconds since the epoch); the reading
    of [datetime.utcnow()] taken by a method is an argument [now] of
    its model. *)

From stdpp Require Import base decidable option list sorting strings pretty.
From Stdlib Require Import ZArith Lia.

Local Open Scope Z_scope.

Definition datetime := Z.

(** ** app/models.py *)

Module User.
Record t := mk {
  id : option Z;
  name : string;
  email : string;
  is_active : bool;
  created_at : datetime
}.

(** [User(name=..., email=...)]: [id] defaults to [None], [is_active]
    to [True] and [created_at] to [datetime.utcnow()]. *)
Definition new (now : datetime) (name email : string) : t :=
  {| id := None; name := name; email := email;
     is_active := true; created_at := now |}.

Definition set_id (v : option Z) (u : t) : t :=
  {| id := v; name := name u; email := email u;
     is_active := is_active u; created_at := created_at u |}.
End User.

Module Task.
Record t := mk {
  id : option Z;
  title : string;
  description : string;
  completed : bool;
  user_id : Z;
  created_at : datetime;
  updated_at : option datetime
}.

(** [Task(title=..., description=..., user_id=...)]: [id] defaults to
    [None], [completed] to [False], [created_at] to
    [datetime.utcnow()] and [updated_at] to [None]. *)
Definition new (now : datetime) (title description : string) (user_id : Z) : t :=
  {| id := None; title := title; description := description;
     completed := false; user_id := user_id;
     created_at := now; updated_at := None |}.

Definition set_id (v : option Z) (x : t) : t :=
  {| id := v; title := title x; description := description x;
     completed := completed x; user_id := user_id x;
     created_at := created_at x; updated_at := updated_at x |}.

Definition set_title (v : string) (x : t) : t :=
  {| id := id x; title := v; description := description x;
     completed := completed x; user_id := user_id x;
     created_at := created_at x; updated_at := updated_at x |}.

Definition set_description (v : string) (x : t) : t :=
  {| id := id x; title := title x; description := v;
     completed := completed x; user_id := user_id x;
     created_at := created_at x; updated_at := updated_at x |}.

Definition set_completed (v : bool) (x : t) : t :=
  {| id := id x; title := title x; description := description x;
     completed := v; user_id := user_id x;
     created_at := created_at x; updated_at := updated_at x |}.

Definition set_updated_at (v : option datetime) (x : t) : t :=
  {| id := id x; title := title x; description := description x;
     completed := completed x; user_id := user_id x;
     created_at := created_at x; updated_at := v |}.
End Task.

(** The request schemas.  Their length limits are checked when a schema
    object is built, before a service method sees it, and play no part
    in what the methods do. *)
Module UserCreate.
Record t := mk { name : string; email : string }.
End UserCreate.

Module TaskCreate.
Record t := mk { title : string; description : string; user_id : Z }.
End TaskCreate.

(** A field of a partial-update schema.  Pydantic records which fields
    the caller passed ([model_fields_set]); a field that was passed may
    still hold [None], since every field of [TaskUpdate] is [Optional]. *)
Inductive supplied (A : Type) : Type :=
  | Unset
  | Supplied (v : option A).
Arguments Unset {A}.
Arguments Supplied {A} v.

Module TaskUpdate.
Record t := mk {
  title : supplied string;
  description : supplied string;
  completed : supplied bool
}.
End TaskUpdate.

(** ** Outcomes and the state-and-exception monad *)

Inductive exn : Type :=
  | IntegrityError
  | InvalidRequestError
  | RuntimeError (msg : string).

Inductive result (A : Type) : Type :=
  | Ok (a : A)
  | Raise (e : exn).
Arguments Ok {A} a.
Arguments Raise {A} e.

(** A computation over a state [St] that returns or raises.  The state
    reached is kept in both cases. *)
Definition M (St A : Type) : Type := St -> result A * St.

#[global] Instance M_ret {St} : MRet (M St) := fun A a st => (Ok a, st).
#[global] Instance M_bind {St} : MBind (M St) := fun A B k c st =>
  match c st with
  | (Ok a, st') => k a st'
  | (Raise e, st') => (Raise e, st')
  end.

#[global] Instance M_fmap {St} : FMap (M St) := fun A B f c st =>
  match c st with
  | (Ok a, st') => (Ok (f a), st')
  | (Raise e, st') => (Raise e, st')
  end.

Definition raise {St A} (e : exn) : M St A := fun st => (Raise e, st).
Definition gets {St A} (f : St -> A) : M St A := fun st => (Ok (f st), st).
Definition modify {St} (f : St -> St) : M St unit := fun st => (Ok tt, f st).

(** ** The storage handle *)

Record Db := mkDb { users : list User.t; tasks : list Task.t }.

Definition empty_db : Db := {| users := []; tasks := [] |}.

(** A unit of work: the committed database and the view of the open
    transaction. *)
Record Session := mkSession { stored : Db; pending : Db }.

Definition set_pending (d : Db) (s : Session) : Session :=
  {| stored := stored s; pending := d |}.

(** Modelled from the spec: [app/database.py] ([get_session]) is not
    among the sources.  The spec's storage handle gives each store
    operation one scoped unit of work, released on every exit path;
    what was not committed when the scope ends is rolled back. *)
Definition get_session {A} (body : M Session A) : M Db A := fun db =>
  let '(r, s) := body {| stored := db; pending := db |} in (r, stored s).

(** The primary key the engine assigns to an inserted row: one more than
    the largest key of the table, 1 for an empty table. *)
Definition next_id (ids : list (option Z)) : Z :=
  1 + foldr (fun i acc => Z.max (default 0 i) acc) 0 ids.

Definition has_id {A} (id : A -> option Z) (k : Z) (x : A) : Prop := id x = Some k.

#[global] Instance has_id_dec {A} (id : A -> option Z) k x : Decision (has_id id k x).
Proof. unfold has_id. apply _. Defined.

(** [session.get(Model, k)]: the row whose primary key is [k]. *)
Definition session_get_User (k : Z) : M Session (option User.t) :=
  gets (fun s => head (filter (has_id User.id k) (users (pending s)))).

Definition session_get_Task (k : Z) : M Session (option Task.t) :=
  gets (fun s => head (filter (has_id Task.id k) (tasks (pending s)))).

(** Queries: [select(Model)], [.where(...)], [.order_by(desc(...))]. *)
Definition query (A : Type) : Type := Db -> list A.

Definition select_User : query User.t := users.
Definition select_Task : query Task.t := tasks.

Definition where_ {A} (P : A -> Prop) `{!forall x, Decision (P x)}
  (q : query A) : query A := fun db => filter P (q db).

(** [desc key] holds of [x] and [y] when [x] may come before [y] in a
    listing by decreasing [key]. *)
Definition desc {A} (key : A -> Z) : relation A := fun x y => key y <= key x.

#[global] Instance desc_dec {A} (key : A -> Z) : RelDecision (desc key).
Proof. intros x y. unfold desc. apply _. Defined.

Definition order_by {A} (R : relation A) `{!RelDecision R}
  (q : query A) : query A := fun db => merge_sort R (q db).

(** [session.exec(query)], then [.all()] or [.first()]. *)
Definition session_exec {A} (q : query A) : M Session (list A) :=
  gets (fun s => q (pending s)).

Definition all {A} (rows : list A) : list A := rows.
Definition first {A} (rows : list A) : option A := head rows.

(** Writes of the open transaction.  [session.add] of an object without
    a primary key inserts it under a fresh key; [session.add] of a
    loaded object writes its attributes back to its row.  The [users]
    table declares [email] unique: inserting a second row with an email
    already present raises [IntegrityError]. *)
Definition set_users (us : list User.t) (d : Db) : Db :=
  {| users := us; tasks := tasks d |}.

Definition set_tasks (ts : list Task.t) (d : Db) : Db :=
  {| users := users d; tasks := ts |}.

Definition write_back {A} (id : A -> option Z) (k : Z) (x : A) (rows : list A) : list A :=
  (fun r => if decide (has_id id k r) then x else r) <$> rows.

Definition session_add_User (u : User.t) : M Session User.t := fun s =>
  let d := pending s in
  match User.id u with
  | None =>
      if decide (Exists (fun r => User.email r = User.email u) (users d))
      then (Raise IntegrityError, s)
      else
        let u' := User.set_id (Some (next_id (User.id <$> users d))) u in
        (Ok u', set_pending (set_users (users d ++ [u']) d) s)
  | Some k =>
      (Ok u, set_pending (set_users (write_back User.id k u (users d)) d) s)
  end.

Definition session_add_Task (x : Task.t) : M Session Task.t := fun s =>
  let d := pending s in
  match Task.id x with
  | None =>
      let x' := Task.set_id (Some (next_id (Task.id <$> tasks d))) x in
      (Ok x', set_pending (set_tasks (tasks d ++ [x']) d) s)
  | Some k =>
      (Ok x, set_pending (set_tasks (write_back Task.id k x (tasks d)) d) s)
  end.

Definition session_delete_Task (x : Task.t) : M Session unit := fun s =>
  let d := pending s in
  match Task.id x with
  | None => (Raise InvalidRequestError, s)
  | Some k =>
      (Ok tt, set_pending (set_tasks (filter (fun r => ¬ has_id Task.id k r) (tasks d)) d) s)
  end.

Definition session_commit : M Session unit :=
  modify (fun s => {| stored := pending s; pending := pending s |}).

(** [session.refresh(obj)]: the attributes of [obj] as its row holds them. *)
Definition session_refresh_User (u : User.t) : M Session User.t :=
  match User.id u with
  | None => raise InvalidRequestError
  | Some k =>
      row ← session_get_User k;
      match row with
      | Some r => mret r
      | None => raise InvalidRequestError
      end
  end.

Definition session_refresh_Task (x : Task.t) : M Session Task.t :=
  match Task.id x with
  | None => raise InvalidRequestError
  | Some k =>
      row ← session_get_Task k;
      match row with
      | Some r => mret r
      | None => raise InvalidRequestError
      end
  end.

(** [setattr(task, field, value)] for one entry of
    [task_data.model_dump(exclude_unset=True)].  An unset field has no
    entry.  The columns [title], [description] and [completed] are not
    nullable, so an entry holding [None] makes the commit of the scope
    fail with [IntegrityError]; the model raises it at the assignment,
    nothing in between being observable. *)
Definition setattr {A} (set : A -> Task.t -> Task.t) (entry : supplied A)
  (task : Task.t) : M Session Task.t :=
  match entry with
  | Unset => mret task
  | Supplied (Some v) => mret (set v task)
  | Supplied None => raise IntegrityError
  end.

(** ** app/task_service.py *)

Module TaskService.

Definition create_task (now : datetime) (task_data : TaskCreate.t)
  : M Db (option Task.t) :=
  get_session (
    user ← session_get_User (TaskCreate.user_id task_data);
    match user with
    | None => mret None
    | Some _ =>
        let task := Task.new now (TaskCreate.title task_data)
                      (TaskCreate.description task_data)
                      (TaskCreate.user_id task_data) in
        task ← session_add_Task task;
        _ ← session_commit;
        task ← session_refresh_Task task;
        mret (Some task)
    end).

Definition get_user_tasks (user_id : Z) (completed : option bool)
  : M Db (list Task.t) :=
  get_session (
    let query := where_ (fun x => Task.user_id x = user_id) select_Task in
    let query :=
      match completed with
      | Some c => where_ (fun x => Task.completed x = c) query
      | None => query
      end in
    let query := order_by (desc Task.created_at) query in
    tasks ← all <$> session_exec query;
    mret tasks).

Definition get_task_by_id (task_id : Z) : M Db (option Task.t) :=
  get_session (session_get_Task task_id).

Definition update_task (now : datetime) (task_id : Z) (task_data : TaskUpdate.t)
  : M Db (option Task.t) :=
  get_session (
    task ← session_get_Task task_id;
    match task with
    | None => mret None
    | Some task =>
        task ← setattr Task.set_title (TaskUpdate.title task_data) task;
        task ← setattr Task.set_description (TaskUpdate.description task_data) task;
        task ← setattr Task.set_completed (TaskUpdate.completed task_data) task;
        let task := Task.set_updated_at (Some now) task in
        task ← session_add_Task task;
        _ ← session_commit;
        task ← session_refresh_Task task;
        mret (Some task)
    end).

Definition toggle_task_completion (now : datetime) (task_id : Z)
  : M Db (option Task.t) :=
  get_session (
    task ← session_get_Task task_id;
    match task with
    | None => mret None
    | Some task =>
        let task := Task.set_completed (negb (Task.completed task)) task in
        let task := Task.set_updated_at (Some now) task in
        task ← session_add_Task task;
        _ ← session_commit;
        task ← session_refresh_Task task;
        mret (Some task)
    end).

Definition delete_task (task_id : Z) : M Db bool :=
  get_session (
    task ← session_get_Task task_id;
    match task with
    | None => mret false
    | Some task =>
        _ ← session_delete_Task task;
        _ ← session_commit;
        mret true
    end).

End TaskService.

(** ** app/user_service.py *)

Module UserService.

Definition create_user (now : datetime) (user_data : UserCreate.t)
  : M Db (option User.t) :=
  get_session (
    existing_user ← first <$> session_exec
      (where_ (fun u => User.email u = UserCreate.email user_data) select_User);
    match existing_user with
    | Some _ => mret None
    | None =>
        let user := User.new now (UserCreate.name user_data)
                      (UserCreate.email user_data) in
        user ← session_add_User user;
        _ ← session_commit;
        user ← session_refresh_User user;
        mret (Some user)
    end).

Definition get_user_by_id (user_id : Z) : M Db (option User.t) :=
  get_session (session_get_User user_id).

Definition get_user_by_email (email : string) : M Db (option User.t) :=
  get_session (
    first <$> session_exec (where_ (fun u => User.email u = email) select_User)).

Definition get_all_users : M Db (list User.t) :=
  get_session (
    users ← all <$> session_exec select_User;
    mret users).

Definition default_email : string := "default@todo.app".

Definition get_or_create_default_user (now : datetime) : M Db User.t :=
  user ← get_user_by_email default_email;
  match user with
  | Some user => mret user
  | None =>
      let user_data := UserCreate.mk "Default User" default_email in
      created_user ← create_user now user_data;
      match created_user with
      | None => raise (RuntimeError "Failed to create default user")
      | Some created_user => mret created_user
      end
  end.

End UserService.

(** ** Callers of the store *)

(** The calls that can change the database.  In a history, every call
    comes with the reading of the clock it takes. *)
Inductive request : Type :=
  | CreateUser (user_data : UserCreate.t)
  | GetOrCreateDefaultUser
  | CreateTask (task_data : TaskCreate.t)
  | UpdateTask (task_id : Z) (task_data : TaskUpdate.t)
  | ToggleTaskCompletion (task_id : Z)
  | DeleteTask (task_id : Z).

(** The database a call leaves behind, whether it returned or raised. *)
Definition serve (now : datetime) (r : request) (db : Db) : Db :=
  match r with
  | CreateUser d => snd (UserService.create_user now d db)
  | GetOrCreateDefaultUser => snd (UserService.get_or_create_default_user now db)
  | CreateTask d => snd (TaskService.create_task now d db)
  | UpdateTask k d => snd (TaskService.update_task now k d db)
  | ToggleTaskCompletion k => snd (TaskService.toggle_task_completion now k db)
  | DeleteTask k => snd (TaskService.delete_task k db)
  end.

Definition replay (history : list (datetime * request)) (db : Db) : Db :=
  foldl (fun db '(now, r) => serve now r db) db history.

(** A sequence of [create_task] calls, each with its clock reading,
    one after the other; the results are collected in order. *)
Fixpoint create_tasks (reqs : list (datetime * TaskCreate.t))
  : M Db (list (option Task.t)) :=
  match reqs with
  | [] => mret []
  | (now, task_data) :: reqs =>
      r ← TaskService.create_task now task_data;
      rs ← create_tasks reqs;
      mret (r :: rs)
  end.

(** ** app/todo_app.py *)

Module todo_app.

(** What a button of a task card does when clicked. *)
Inductive action : Type :=
  | on_toggle (task_id : Z)
  | on_delete (task_id : Z).

(** The elements the page is built from: containers with their classes
    and children, labels, icons, and buttons with their click action.
    An element on which [.classes] is not called has the classes [""]. *)
#[local] Unset Elimination Schemes.
Inductive element : Type :=
  | ui_card (classes : string) (children : list element)
  | ui_row (classes : string) (children : list element)
  | ui_column (classes : string) (children : list element)
  | ui_label (text classes : string)
  | ui_icon (name size classes : string)
  | ui_button (icon props classes : string) (on_click : action).
#[local] Set Elimination Schemes.

(** What the handlers of the page read and write besides the database:
    the two inputs of the form, the two containers they fill, and the
    notifications and log lines they emit, oldest first. *)
Record Page := mkPage {
  task_title : string;
  task_description : string;
  tasks_container : list element;
  stats_container : list element;
  notifications : list (string * string);
  log : list string
}.

Definition ui_notify (message type_ : string) (p : Page) : Page :=
  {| task_title := task_title p; task_description := task_description p;
     tasks_container := tasks_container p; stats_container := stats_container p;
     notifications := notifications p ++ [(message, type_)]; log := log p |}.

Definition logger_error (message : string) (p : Page) : Page :=
  {| task_title := task_title p; task_description := task_description p;
     tasks_container := tasks_container p; stats_container := stats_container p;
     notifications := notifications p; log := log p ++ [message] |}.



Definition set_tasks_container (es : list element) (p : Page) : Page :=
  {| task_title := task_title p; task_description := task_description p;
     tasks_container := es; stats_container := stats_container p;
     notifications := notifications p; log := log p |}.

Definition set_stats_container (es : list element) (p : Page) : Page :=
  {| task_title := task_title p; task_description := task_description p;
     tasks_container := tasks_container p; stats_container := es;
     notifications := notifications p; log := log p |}.

Definition empty_page : Page :=
  {| task_title := ""; task_description := ""; tasks_container := [];
     stats_container := []; notifications := []; log := [] |}.


Section handlers.
(** [str.strip], [datetime.strftime] and the text [str(e)] of an
    exception, of the store or of the schema, are taken as given. *)
Context (strip : string -> string).
Context (strftime : datetime -> string -> string).
Context (str_exn : exn -> string).
Context (str_validation_error : string -> string -> string).

Definition create_task_card (task : Task.t) : list element :=
  let card_classes :=
    "bg-white shadow-md rounded-lg p-4 mb-3 hover:shadow-lg transition-shadow" in
  let card_classes :=
    if Task.completed task
    then card_classes +:+ " bg-green-50 border-l-4 border-green-400"
    else card_classes in
  [ui_card card_classes
     [ui_row "w-full items-start justify-between"
        [ui_column "flex-1 min-w-0"
           (let title_classes := "text-lg font-semibold" in
            let title_classes :=
              if Task.completed task
              then title_classes +:+ " line-through text-gray-500"
              else title_classes +:+ " text-gray-800" in
            [ui_label (Task.title task) title_classes]
            ++ (if decide (Task.description task = "") then []
                else
                  let desc_classes := "text-sm mt-1" in
                  let desc_classes :=
                    if Task.completed task
                    then desc_classes +:+ " text-gray-400"
                    else desc_classes +:+ " text-gray-600" in
                  [ui_label (Task.description task) desc_classes])
            ++ (let created_date :=
                  strftime (Task.created_at task) "%b %d, %Y at %I:%M %p" in
                [ui_label ("Created: " +:+ created_date) "text-xs text-gray-400 mt-2"])
            ++ (match Task.updated_at task with
                | Some updated_at =>
                    let updated_date := strftime updated_at "%b %d, %Y at %I:%M %p" in
                    [ui_label ("Updated: " +:+ updated_date) "text-xs text-gray-400"]
                | None => []
                end));
         ui_column "flex-none ml-4"
           (let toggle_icon :=
              if Task.completed task then "check_circle" else "radio_button_unchecked" in
            let toggle_color := if Task.completed task then "positive" else "grey-5" in
            match Task.id task with
            | Some task_id =>
                [ui_button toggle_icon ("flat round color=" +:+ toggle_color) "mb-2"
                   (on_toggle task_id);
                 ui_button "delete" "flat round color=negative" "" (on_delete task_id)]
            | None => []
            end)]]].

(** One card of the statistics row: a number over a caption. *)
Definition stat_card (card_classes number number_classes caption caption_classes : string)
  : element :=
  ui_card card_classes [ui_label number number_classes; ui_label caption caption_classes].

Definition update_statistics (user : User.t) (st : Page * Db) : Page * Db :=
  let '(p, db) := st in
  match User.id user with
  | None => (ui_notify "User not properly initialized" "negative" p, db)
  | Some user_id =>
      match TaskService.get_user_tasks user_id None db with
      | (Raise e, db) =>
          let p := logger_error ("Error updating statistics: " +:+ str_exn e) p in
          (ui_notify ("Error updating statistics: " +:+ str_exn e) "negative" p, db)
      | (Ok all_tasks, db) =>
      match TaskService.get_user_tasks user_id (Some true) db with
      | (Raise e, db) =>
          let p := logger_error ("Error updating statistics: " +:+ str_exn e) p in
          (ui_notify ("Error updating statistics: " +:+ str_exn e) "negative" p, db)
      | (Ok completed_tasks, db) =>
      match TaskService.get_user_tasks user_id (Some false) db with
      | (Raise e, db) =>
          let p := logger_error ("Error updating statistics: " +:+ str_exn e) p in
          (ui_notify ("Error updating statistics: " +:+ str_exn e) "negative" p, db)
      | (Ok active_tasks, db) =>
          (set_stats_container
             [stat_card "p-4 bg-blue-50 border border-blue-200 rounded-lg"
                (pretty (length all_tasks)) "text-2xl font-bold text-blue-600"
                "Total Tasks" "text-sm text-blue-500 uppercase tracking-wider";
              stat_card "p-4 bg-orange-50 border border-orange-200 rounded-lg"
                (pretty (length active_tasks)) "text-2xl font-bold text-orange-600"
                "Active" "text-sm text-orange-500 uppercase tracking-wider";
              stat_card "p-4 bg-green-50 border border-green-200 rounded-lg"
                (pretty (length completed_tasks)) "text-2xl font-bold text-green-600"
                "Completed" "text-sm text-green-500 uppercase tracking-wider"]
             p, db)
      end end end
  end.

Definition filter_text (completed : option bool) : string :=
  match completed with
  | None => "Create your first task to get started!"
  | Some false => "All tasks are completed! Great job! 🎉"
  | Some true => "No completed tasks yet."
  end.

Definition show_tasks (user : User.t) (completed : option bool) (st : Page * Db)
  : Page * Db :=
  let '(p, db) := st in
  match User.id user with
  | None => (ui_notify "User not properly initialized" "negative" p, db)
  | Some user_id =>
      match TaskService.get_user_tasks user_id completed db with
      | (Raise e, db) =>
          let p := logger_error ("Error loading tasks: " +:+ str_exn e) p in
          (ui_notify ("Error loading tasks: " +:+ str_exn e) "negative" p, db)
      | (Ok tasks, db) =>
          let p :=
            match tasks with
            | [] =>
                set_tasks_container
                  [ui_card "w-full p-8 text-center bg-gray-50"
                     [ui_icon "task_alt" "3em" "text-gray-300 mb-4";
                      ui_label "No tasks found" "text-xl text-gray-500 mb-2";
                      ui_label (filter_text completed) "text-gray-400"]] p
            | _ => set_tasks_container (tasks ≫= create_task_card) p
            end in
          update_statistics user (p, db)
      end
  end.


Definition toggle_task (user : User.t) (now : datetime) (task_id : Z)
    (st : Page * Db) : Page * Db :=
  let '(p, db) := st in
  match TaskService.toggle_task_completion now task_id db with
  | (Raise e, db) =>
      let message := "Error updating task: " +:+ str_exn e in
      (ui_notify message "negative" (logger_error message p), db)
  | (Ok None, db) => (ui_notify "Task not found" "warning" p, db)
  | (Ok (Some updated_task), db) =>
      let status :=
        if Task.completed updated_task then "completed" else "marked as active" in
      let p := ui_notify ("Task " +:+ status) "positive" p in
      show_tasks user None (p, db)
  end.

Definition delete_task (user : User.t) (task_id : Z) (st : Page * Db) : Page * Db :=
  let '(p, db) := st in
  match TaskService.delete_task task_id db with
  | (Raise e, db) =>
      let message := "Error deleting task: " +:+ str_exn e in
      (ui_notify message "negative" (logger_error message p), db)
  | (Ok false, db) => (ui_notify "Task not found" "warning" p, db)
  | (Ok true, db) =>
      let p := ui_notify "Task deleted" "info" p in
      show_tasks user None (p, db)
  end.




(** [todo_page]: the default user is fetched or created, then the
    listing is loaded.  The header, the form and the filter buttons it
    lays out hold no state of their own; the form starts empty. *)
Definition todo_page (now : datetime) : M Db (User.t * Page) := fun db =>
  match UserService.get_or_create_default_user now db with
  | (Raise e, db) => (Raise e, db)
  | (Ok user, db) =>
      match User.id user with
      | None =>
          (Ok (user, ui_notify "Error: Could not initialize user" "negative" empty_page), db)
      | Some _ =>
          let '(p, db) := show_tasks user None (empty_page, db) in
          (Ok (user, p), db)
      end
  end.

End handlers.

End todo_app.

(** * Vocabulary of the statements *)

Definition lookup_task (k : Z) (db : Db) : option Task.t :=
  head (filter (has_id Task.id k) (tasks db)).

Definition lookup_user (k : Z) (db : Db) : option User.t :=
  head (filter (has_id User.id k) (users db)).

Definition lookup_email (e : string) (db : Db) : option User.t :=
  head (filter (fun u => User.email u = e) (users db)).

(** The row a successful [create_task] inserts. *)
Definition created_task (now : datetime) (d : TaskCreate.t) (db : Db) : Task.t :=
  Task.set_id (Some (next_id (Task.id <$> tasks db)))
    (Task.new now (TaskCreate.title d) (TaskCreate.description d)
       (TaskCreate.user_id d)).

(** The value an entry of the update leaves in a field holding [old]. *)
Definition assigned {A} (entry : supplied A) (old : A) : A :=
  match entry with
  | Supplied (Some v) => v
  | _ => old
  end.

Definition holds_none {A} (entry : supplied A) : bool :=
  match entry with
  | Supplied None => true
  | _ => false
  end.

Definition passes_none (d : TaskUpdate.t) : bool :=
  holds_none (TaskUpdate.title d) || holds_none (TaskUpdate.description d)
  || holds_none (TaskUpdate.completed d).

(** The row [update_task] writes for the task [x]. *)
Definition updated_task (now : datetime) (d : TaskUpdate.t) (x : Task.t) : Task.t :=
  {| Task.id := Task.id x;
     Task.title := assigned (TaskUpdate.title d) (Task.title x);
     Task.description := assigned (TaskUpdate.description d) (Task.description x);
     Task.completed := assigned (TaskUpdate.completed d) (Task.completed x);
     Task.user_id := Task.user_id x;
     Task.created_at := Task.created_at x;
     Task.updated_at := Some now |}.

(** The row [toggle_task_completion] writes for the task [x]. *)
Definition toggled_task (now : datetime) (x : Task.t) : Task.t :=
  Task.set_updated_at (Some now) (Task.set_completed (negb (Task.completed x)) x).

(** The row a successful [create_user] inserts. *)
Definition created_user (now : datetime) (d : UserCreate.t) (db : Db) : User.t :=
  User.set_id (Some (next_id (User.id <$> users db)))
    (User.new now (UserCreate.name d) (UserCreate.email d)).

(** The completion filter of a listing: [None] lets every task through. *)
Definition passes (completed : option bool) (x : Task.t) : Prop :=
  match completed with
  | Some c => Task.completed x = c
  | None => True
  end.

#[global] Instance passes_dec completed x : Decision (passes completed x).
Proof. destruct completed; cbn; apply _. Defined.

(** The rows the query of [get_user_tasks] selects, before ordering. *)
Definition selected (user_id : Z) (completed : option bool) (db : Db) : list Task.t :=
  filter (fun x => Task.user_id x = user_id /\ passes completed x) (tasks db).

(** The clock does not go backwards along [history], and reads [now]
    or later after it. *)
Definition clock_monotone (history : list (datetime * request)) (now : datetime) : Prop :=
  StronglySorted Z.le (history.*1 ++ [now]).

(** At clock reading [clk], no task was created later than [clk], and
    no task was updated before it was created. *)
Definition timestamps_ok (clk : datetime) (db : Db) : Prop :=
  Forall (fun x =>
            Task.created_at x <= clk /\
            forall u, Task.updated_at x = Some u -> Task.created_at x <= u)
    (tasks db).

(** Every row has a primary key and no two rows share one. *)
Definition keys_ok {A} (id : A -> option Z) (rows : list A) : Prop :=
  Forall (fun r => is_Some (id r)) rows /\ NoDup (id <$> rows).

(** No two users share an email. *)
Definition emails_unique (db : Db) : Prop := NoDup (User.email <$> users db).

(** Every task is owned by a stored user. *)
Definition owners_exist (db : Db) : Prop :=
  Forall (fun x => Exists (fun u => User.id u = Some (Task.user_id x)) (users db))
    (tasks db).

(** The list [get_user_tasks] returns. *)
Definition listing (user_id : Z) (completed : option bool) (db : Db) : list Task.t :=
  merge_sort (desc Task.created_at)
    (match completed with
     | Some b => filter (fun x => Task.completed x = b)
                   (filter (fun x => Task.user_id x = user_id) (tasks db))
     | None => filter (fun x => Task.user_id x = user_id) (tasks db)
     end).

(** What [show_tasks] puts into the tasks container for a listing. *)
Definition rendered (strftime : datetime -> string -> string)
    (completed : option bool) (l : list Task.t) : list todo_app.element :=
  match l with
  | [] =>
      [todo_app.ui_card "w-full p-8 text-center bg-gray-50"
         [todo_app.ui_icon "task_alt" "3em" "text-gray-300 mb-4";
          todo_app.ui_label "No tasks found" "text-xl text-gray-500 mb-2";
          todo_app.ui_label (todo_app.filter_text completed) "text-gray-400"]]
  | _ => l ≫= todo_app.create_task_card strftime
  end.

(** The click actions of the buttons of an element and of everything
    inside it, in page order. *)
Fixpoint actions (e : todo_app.element) : list todo_app.action :=
  match e with
  | todo_app.ui_card _ children
  | todo_app.ui_row _ children
  | todo_app.ui_column _ children =>
      (fix go (es : list todo_app.element) : list todo_app.action :=
         match es with
         | [] => []
         | e :: es => actions e ++ go es
         end) children
  | todo_app.ui_button _ _ _ a => [a]
  | todo_app.ui_label _ _ | todo_app.ui_icon _ _ _ => []
  end.

(** ** Sample databases *)

Definition db_one_user : Db :=
  {| users := [User.mk (Some 1) "Test User" "test@example.com" true 10];
     tasks := [] |}.

Definition task1 : Task.t := Task.mk (Some 1) "Task 1" "" false 1 20 None.
Definition task2 : Task.t := Task.mk (Some 2) "Task 2" "" false 1 30 None.
Definition db_two_tasks : Db := set_tasks [task1; task2] db_one_user.

Definition task_active : Task.t := Task.mk (Some 1) "Active Task" "" false 1 20 None.
Definition task_done : Task.t := Task.mk (Some 2) "Completed Task" "" true 1 30 (Some 40).
Definition db_filtering : Db := set_tasks [task_active; task_done] db_one_user.

Definition history_two_tasks : list (datetime * request) :=
  [(10, CreateUser (UserCreate.mk "Test User" "test@example.com"));
   (20, CreateTask (TaskCreate.mk "Task 1" "" 1));
   (30, CreateTask (TaskCreate.mk "Task 2" "" 1))].

Definition task_original : Task.t :=
  Task.mk (Some 1) "Original Title" "Original Description" false 1 20 None.
Definition db_original : Db := set_tasks [task_original] db_one_user.

Definition db_two_users : Db :=
  {| users := [User.mk (Some 1) "User 1" "user1@example.com" true 10;
               User.mk (Some 2) "User 2" "user2@example.com" true 11];
     tasks := [] |}.

(** The database the fixture [sample_user] of the tests builds on the
    empty one. *)
Definition sample_user_db : Db :=
  snd (UserService.create_user 10 (UserCreate.mk "Test User" "test@example.com") empty_db).

Definition sample_user : User.t :=
  User.mk (Some 1) "Test User" "test@example.com" true 10.

Definition sample_strftime : datetime -> string -> string := fun t _ => pretty t.
Definition sample_str_exn : exn -> string := fun _ => "database error".



(** * Properties *)

(** ** Rows and primary keys *)

Section rows.
Context {A : Type} (id : A -> option Z).
Implicit Types (rows : list A) (k : Z) (x : A).

Lemma next_id_above rows x k :
  x ∈ rows -> id x = Some k -> k < next_id (id <$> rows).
Proof.
  unfold next_id. induction rows as [|r rows IH]; intros Hin Hk.
  - inversion Hin.
  - cbn [fmap list_fmap foldr].
    apply elem_of_cons in Hin as [->|Hin].
    + rewrite Hk. cbv [from_option Datatypes.id]. lia.
    + specialize (IH Hin Hk). lia.
Qed.

Lemma next_id_fresh rows :
  filter (has_id id (next_id (id <$> rows))) rows = [].
Proof.
  destruct (filter _ rows) as [|x l] eqn:E; [done|].
  assert (Hx : x ∈ filter (has_id id (next_id (id <$> rows))) rows)
    by (rewrite E; left).
  apply list_elem_of_filter in Hx as [Hk Hin].
  pose proof (next_id_above _ _ _ Hin Hk). lia.
Qed.

Lemma get_has_id rows k x :
  head (filter (has_id id k) rows) = Some x -> id x = Some k /\ x ∈ rows.
Proof.
  intros H. apply head_Some_elem_of, list_elem_of_filter in H. done.
Qed.

Lemma get_None rows k :
  head (filter (has_id id k) rows) = None <->
  Forall (fun r => id r <> Some k) rows.
Proof.
  rewrite head_None, Forall_forall. split.
  - intros E r Hr Hk. eapply filter_nil_not_elem_of; eauto.
  - intros H. destruct (filter _ rows) as [|r l] eqn:E; [done|].
    assert (Hr : r ∈ filter (has_id id k) rows) by (rewrite E; left).
    apply list_elem_of_filter in Hr as [Hk Hr]. by destruct (H r Hr).
Qed.

Lemma filter_write_back_eq rows k x :
  id x = Some k ->
  filter (has_id id k) (write_back id k x rows)
  = (fun _ => x) <$> filter (has_id id k) rows.
Proof.
  intros Hx. unfold write_back.
  induction rows as [|r rows IH]; [done|]. cbn [fmap list_fmap].
  destruct (decide (has_id id k r)) as [Hr|Hr].
  - rewrite !filter_cons_True by done. cbn. by f_equal.
  - rewrite !filter_cons_False by done. done.
Qed.

Lemma filter_write_back_ne rows k k' x :
  id x = Some k -> k' <> k ->
  filter (has_id id k') (write_back id k x rows) = filter (has_id id k') rows.
Proof.
  intros Hx Hne. unfold write_back.
  induction rows as [|r rows IH]; [done|]. cbn [fmap list_fmap].
  destruct (decide (has_id id k r)) as [Hr|Hr].
  - rewrite !filter_cons_False; [done| |]; unfold has_id in *; congruence.
  - destruct (decide (has_id id k' r)).
    + rewrite !filter_cons_True by done. by f_equal.
    + rewrite !filter_cons_False by done. done.
Qed.

Lemma get_write_back rows k x y :
  id x = Some k ->
  head (filter (has_id id k) rows) = Some y ->
  head (filter (has_id id k) (write_back id k x rows)) = Some x.
Proof.
  intros Hx Hy. rewrite filter_write_back_eq by done.
  destruct (filter _ rows); [done|]. done.
Qed.

Lemma get_after_delete rows k :
  filter (has_id id k) (filter (fun r => ¬ has_id id k r) rows) = [].
Proof.
  induction rows as [|r rows IH]; [done|].
  destruct (decide (has_id id k r)).
  - rewrite (filter_cons_False (fun r => ¬ has_id id k r)) by tauto. done.
  - rewrite (filter_cons_True (fun r => ¬ has_id id k r)) by done.
    rewrite filter_cons_False by done. done.
Qed.

Lemma get_other_after_delete rows k k' :
  k' <> k ->
  filter (has_id id k') (filter (fun r => ¬ has_id id k r) rows)
  = filter (has_id id k') rows.
Proof.
  intros Hne. induction rows as [|r rows IH]; [done|].
  destruct (decide (has_id id k r)) as [Hr|Hr].
  - rewrite (filter_cons_False (fun r => ¬ has_id id k r)) by tauto.
    rewrite (filter_cons_False (has_id id k')); [done|].
    unfold has_id in *. congruence.
  - rewrite (filter_cons_True (fun r => ¬ has_id id k r)) by done.
    destruct (decide (has_id id k' r)).
    + rewrite !filter_cons_True by done. by f_equal.
    + rewrite !filter_cons_False by done. done.
Qed.
End rows.

(** ** What each store operation computes *)

(** Unfolds the monad and the session primitives in the goal. *)
Ltac run_session :=
  cbv [get_session mbind M_bind mret M_ret fmap M_fmap raise gets modify
       session_get_User session_get_Task session_exec session_commit
       session_refresh_User session_refresh_Task session_add_User
       session_add_Task session_delete_Task setattr set_pending
       where_ order_by select_User select_Task all first];
  cbn [stored pending users tasks set_users set_tasks].

(** Reduces the accessors of a task under construction, using the
    primary key [Hk] of the loaded row. *)
Ltac task_fields Hk :=
  repeat (progress (cbn [Task.id Task.set_updated_at Task.set_title
            Task.set_description Task.set_completed Task.set_id Task.new
            stored pending tasks set_tasks]; rewrite ?Hk)).

Lemma get_task_by_id_eq k db :
  TaskService.get_task_by_id k db = (Ok (lookup_task k db), db).
Proof. reflexivity. Qed.

Lemma get_user_by_id_eq k db :
  UserService.get_user_by_id k db = (Ok (lookup_user k db), db).
Proof. reflexivity. Qed.

Lemma get_user_by_email_eq e db :
  UserService.get_user_by_email e db = (Ok (lookup_email e db), db).
Proof. reflexivity. Qed.

Lemma get_task_by_id_Some k db x :
  TaskService.get_task_by_id k db = (Ok (Some x), db) <-> lookup_task k db = Some x.
Proof. rewrite get_task_by_id_eq. split; congruence. Qed.

Lemma get_task_by_id_None k db :
  TaskService.get_task_by_id k db = (Ok None, db) <-> lookup_task k db = None.
Proof. rewrite get_task_by_id_eq. split; congruence. Qed.

Lemma get_user_tasks_eq uid c db :
  TaskService.get_user_tasks uid c db
  = (Ok (merge_sort (desc Task.created_at)
           (match c with
            | Some b => filter (fun x => Task.completed x = b)
                          (filter (fun x => Task.user_id x = uid) (tasks db))
            | None => filter (fun x => Task.user_id x = uid) (tasks db)
            end)), db).
Proof. destruct c; reflexivity. Qed.

Lemma create_task_eq now d db :
  TaskService.create_task now d db
  = match lookup_user (TaskCreate.user_id d) db with
    | None => (Ok None, db)
    | Some _ =>
        (Ok (Some (created_task now d db)),
         set_tasks (tasks db ++ [created_task now d db]) db)
    end.
Proof.
  unfold TaskService.create_task, lookup_user. run_session.
  destruct (head (filter _ (users db))); [|done].
  cbn [Task.id Task.set_id Task.new stored pending tasks set_tasks].
  rewrite filter_app, next_id_fresh.
  rewrite filter_cons_True by done. done.
Qed.

Lemma update_task_eq now k d db :
  TaskService.update_task now k d db
  = match lookup_task k db with
    | None => (Ok None, db)
    | Some x =>
        if passes_none d then (Raise IntegrityError, db)
        else (Ok (Some (updated_task now d x)),
              set_tasks (write_back Task.id k (updated_task now d x) (tasks db)) db)
    end.
Proof.
  unfold TaskService.update_task, lookup_task. run_session.
  destruct (head (filter _ (tasks db))) as [x|] eqn:Hx; [|done].
  destruct (get_has_id _ _ _ _ Hx) as [Hk _].
  destruct d as [[|[vt|]] [|[vd|]] [|[vc|]]];
    cbn [TaskUpdate.title TaskUpdate.description TaskUpdate.completed
         passes_none holds_none orb]; try done;
    task_fields Hk;
    match goal with
    | |- context [head (filter _ (write_back _ _ ?y _))] =>
        rewrite (get_write_back Task.id _ k y x Hk Hx)
    end; destruct x; done.
Qed.

Lemma toggle_task_completion_eq now k db :
  TaskService.toggle_task_completion now k db
  = match lookup_task k db with
    | None => (Ok None, db)
    | Some x =>
        (Ok (Some (toggled_task now x)),
         set_tasks (write_back Task.id k (toggled_task now x) (tasks db)) db)
    end.
Proof.
  unfold TaskService.toggle_task_completion, lookup_task. run_session.
  destruct (head (filter _ (tasks db))) as [x|] eqn:Hx; [|done].
  destruct (get_has_id _ _ _ _ Hx) as [Hk _].
  task_fields Hk.
  match goal with
  | |- context [head (filter _ (write_back _ _ ?y _))] =>
      rewrite (get_write_back Task.id _ k y x Hk Hx)
  end. done.
Qed.

Lemma delete_task_eq k db :
  TaskService.delete_task k db
  = match lookup_task k db with
    | None => (Ok false, db)
    | Some _ =>
        (Ok true, set_tasks (filter (fun r => ¬ has_id Task.id k r) (tasks db)) db)
    end.
Proof.
  unfold TaskService.delete_task, lookup_task. run_session.
  destruct (head (filter _ (tasks db))) as [x|] eqn:Hx; [|done].
  destruct (get_has_id _ _ _ _ Hx) as [Hk _].
  task_fields Hk. done.
Qed.

Lemma lookup_email_None e db :
  lookup_email e db = None <-> Forall (fun u => User.email u <> e) (users db).
Proof.
  unfold lookup_email. rewrite head_None, Forall_forall. split.
  - intros E u Hu He.
    exact (filter_nil_not_elem_of (fun u => User.email u = e) _ u E He Hu).
  - intros H. destruct (filter _ (users db)) as [|u l] eqn:E; [done|].
    assert (Hu : u ∈ filter (fun u => User.email u = e) (users db))
      by (rewrite E; left).
    apply list_elem_of_filter in Hu as [He Hu]. by destruct (H u Hu).
Qed.

Lemma lookup_email_Some e db u :
  lookup_email e db = Some u -> User.email u = e /\ u ∈ users db.
Proof.
  intros H. apply head_Some_elem_of, list_elem_of_filter in H. done.
Qed.

Lemma create_user_eq now d db :
  UserService.create_user now d db
  = match lookup_email (UserCreate.email d) db with
    | Some _ => (Ok None, db)
    | None =>
        (Ok (Some (created_user now d db)),
         set_users (users db ++ [created_user now d db]) db)
    end.
Proof.
  unfold UserService.create_user. run_session.
  fold (lookup_email (UserCreate.email d) db).
  destruct (lookup_email _ db) as [u|] eqn:Hu; [done|].
  apply lookup_email_None in Hu.
  cbn [User.id User.new User.email].
  rewrite decide_False; last first.
  { rewrite Exists_exists. intros (u & Hin & He).
    rewrite Forall_forall in Hu. by apply (Hu u Hin). }
  cbn [User.id User.set_id User.new stored pending users set_users].
  rewrite filter_app, next_id_fresh.
  rewrite filter_cons_True by done. done.
Qed.

Lemma get_or_create_default_user_eq now db :
  UserService.get_or_create_default_user now db
  = match lookup_email UserService.default_email db with
    | Some u => (Ok u, db)
    | None =>
        let d := UserCreate.mk "Default User" UserService.default_email in
        (Ok (created_user now d db), set_users (users db ++ [created_user now d db]) db)
    end.
Proof.
  unfold UserService.get_or_create_default_user.
  unfold mbind at 1. unfold M_bind. rewrite get_user_by_email_eq.
  destruct (lookup_email _ db) as [u|] eqn:Hu; [done|].
  unfold mbind, M_bind. rewrite create_user_eq.
  cbn [UserCreate.email]. rewrite Hu. done.
Qed.

(** ** C1: task creation for a user that does not exist *)

(** C1. When no row of [users] has the primary key [user_id] of the
    request, [create_task] returns [None] without raising and leaves the
    database, hence the [tasks] table, as it was. *)
Theorem create_task_nonexistent_user (now : datetime) (task_data : TaskCreate.t) (db : Db) :
  Forall (fun u => User.id u <> Some (TaskCreate.user_id task_data)) (users db) ->
  TaskService.create_task now task_data db = (Ok None, db).
Proof.
  intros Habsent. rewrite create_task_eq.
  unfold lookup_user. apply get_None in Habsent. by rewrite Habsent.
Qed.

Lemma create_task_nonexistent_user_witness :
  TaskService.create_task 20 (TaskCreate.mk "Test task" "This should fail" 999) db_one_user
  = (Ok None, db_one_user).
Proof.
  apply create_task_nonexistent_user.
  repeat constructor. simpl. congruence.
Defined.

(** ** C7: user creation with an email already present *)

(** C7. When some user already has the email of the request,
    [create_user] returns [None], it does not raise, and the database is
    the one it started from, so every stored user keeps all its fields. *)
Theorem create_user_duplicate_email (now : datetime) (user_data : UserCreate.t)
    (db : Db) (u : User.t) :
  u ∈ users db ->
  User.email u = UserCreate.email user_data ->
  UserService.create_user now user_data db = (Ok None, db).
Proof.
  intros Hin He. rewrite create_user_eq.
  destruct (lookup_email _ db) as [u'|] eqn:Hu; [done|].
  apply lookup_email_None in Hu. rewrite Forall_forall in Hu.
  by destruct (Hu u Hin).
Qed.

Lemma create_user_duplicate_email_witness :
  UserService.create_user 30 (UserCreate.mk "Jane Doe" "test@example.com") db_one_user
  = (Ok None, db_one_user).
Proof.
  apply (create_user_duplicate_email 30 _ db_one_user
           (User.mk (Some 1) "Test User" "test@example.com" true 10)).
  - simpl. left.
  - reflexivity.
Defined.

(** ** C8: the default user *)

(** C8. From any database, two calls of [get_or_create_default_user] in
    sequence both return, and return the same user (so the same id); the
    second call changes nothing.  The first call leaves the database as
    it was when a user with the sentinel email exists, and returns the
    first such user; otherwise it appends one user, named "Default
    User", with the sentinel email and a fresh primary key. *)
Theorem get_or_create_default_user_twice (now1 now2 : datetime) (db : Db) :
  exists (u : User.t) (db1 : Db),
    UserService.get_or_create_default_user now1 db = (Ok u, db1) /\
    UserService.get_or_create_default_user now2 db1 = (Ok u, db1) /\
    User.email u = "default@todo.app" /\
    match UserService.get_user_by_email "default@todo.app" db with
    | (Ok (Some u0), _) => db1 = db /\ u = u0
    | _ =>
        db1 = set_users (users db ++ [u]) db /\
        u = User.mk (Some (next_id (User.id <$> users db)))
              "Default User" "default@todo.app" true now1
    end.
Proof.
  rewrite get_or_create_default_user_eq, get_user_by_email_eq.
  change "default@todo.app" with UserService.default_email.
  destruct (lookup_email _ db) as [u|] eqn:Hu.
  - exists u, db. rewrite get_or_create_default_user_eq, Hu.
    apply lookup_email_Some in Hu as [He _]. done.
  - cbv zeta. eexists _, _. split; [reflexivity|].
    rewrite get_or_create_default_user_eq.
    unfold lookup_email. cbn [users set_users].
    rewrite filter_app.
    unfold lookup_email in Hu. apply head_None in Hu. rewrite Hu.
    rewrite filter_cons_True by done. done.
Qed.

(** ** Listings by decreasing creation time *)

#[global] Instance desc_trans {A} (key : A -> Z) : Transitive (desc key).
Proof. unfold desc. intros x y z ? ?. lia. Qed.

#[global] Instance desc_total {A} (key : A -> Z) : Total (desc key).
Proof. unfold desc. intros x y. lia. Qed.

Lemma StronglySorted_lookup_lt {A} (R : relation A) (l : list A) (i j : nat) x y :
  StronglySorted R l -> l !! i = Some x -> l !! j = Some y -> (i < j)%nat -> R x y.
Proof.
  intros Hs. revert i j. induction Hs as [|a l Hs IH Ha]; intros i j Hi Hj Hlt.
  - by rewrite lookup_nil in Hi.
  - destruct j as [|j]; [lia|]. cbn in Hj. destruct i as [|i]; cbn in Hi.
    + injection Hi as ->. rewrite Forall_forall in Ha.
      apply Ha. apply list_elem_of_lookup. eauto.
    + apply (IH i j); [done|done|lia].
Qed.

Lemma get_user_tasks_Permutation uid c db :
  exists l,
    TaskService.get_user_tasks uid c db = (Ok l, db) /\
    l ≡ₚ selected uid c db /\
    StronglySorted (desc Task.created_at) l.
Proof.
  rewrite get_user_tasks_eq. eexists. split; [reflexivity|]. split.
  - rewrite merge_sort_Permutation. unfold selected. destruct c as [b|].
    + rewrite list_filter_filter.
      erewrite list_filter_iff; [done|]. intros x. cbn. tauto.
    + erewrite list_filter_iff; [done|]. intros x. cbn. tauto.
  - apply StronglySorted_merge_sort; apply _.
Qed.

Lemma sorted_pair_desc {A} (key : A -> Z) (l : list A) (x y : A) :
  l ≡ₚ [x; y] -> StronglySorted (desc key) l -> key x < key y -> l = [y; x].
Proof.
  intros Hp Hs Hlt.
  pose proof (Permutation_length Hp) as Hlen.
  destruct l as [|a [|b [|? ?]]]; try discriminate Hlen.
  assert (Ha : a ∈ [x; y]) by (rewrite <- Hp; left).
  assert (Hb : b ∈ [x; y]) by (rewrite <- Hp; right; left).
  apply StronglySorted_cons in Hs as [Hab _].
  rewrite Forall_forall in Hab. specialize (Hab b (list_elem_of_here _ _)).
  unfold desc in Hab.
  rewrite !elem_of_cons, elem_of_nil in Ha, Hb.
  destruct Ha as [->|[->|[]]], Hb as [->|[->|[]]]; try lia; try done.
  - assert (Hy : y ∈ [x; x]) by (rewrite Hp; right; left).
    rewrite !elem_of_cons, elem_of_nil in Hy. destruct Hy as [->|[->|[]]]; lia.
  - assert (Hx : x ∈ [y; y]) by (rewrite Hp; left).
    rewrite !elem_of_cons, elem_of_nil in Hx. destruct Hx as [->|[->|[]]]; lia.
Qed.

(** ** C2: newest first *)

(** C2. [get_user_tasks] returns, without raising and without changing
    the database, the selected tasks of the user in an order in which
    [created_at] never increases.  Hence a task of the listing with a
    strictly later [created_at] stands at a strictly smaller position
    than one with an earlier [created_at]; and when the user's tasks are
    exactly [T1] and [T2], [T1] created strictly earlier, the unfiltered
    listing is [[T2; T1]]. *)
Theorem get_user_tasks_newest_first (user_id : Z) (completed : option bool) (db : Db) :
  exists l : list Task.t,
    TaskService.get_user_tasks user_id completed db = (Ok l, db) /\
    l ≡ₚ filter (fun x => Task.user_id x = user_id /\ passes completed x) (tasks db) /\
    StronglySorted (fun x y => Task.created_at y <= Task.created_at x) l /\
    (forall (i j : nat) (T1 T2 : Task.t),
        l !! i = Some T2 -> l !! j = Some T1 ->
        Task.created_at T1 < Task.created_at T2 -> (i < j)%nat) /\
    (forall T1 T2 : Task.t,
        completed = None ->
        filter (fun x => Task.user_id x = user_id) (tasks db) ≡ₚ [T1; T2] ->
        Task.created_at T1 < Task.created_at T2 ->
        l = [T2; T1]).
Proof.
  destruct (get_user_tasks_Permutation user_id completed db) as (l & Hl & Hp & Hs).
  exists l. repeat split; try done.
  - intros i j T1 T2 Hi Hj Hlt.
    destruct (decide (i < j)%nat) as [|Hge]; [done|].
    destruct (decide (i = j)) as [->|Hne].
    + rewrite Hi in Hj. injection Hj as ->. lia.
    + assert (Hji : (j < i)%nat) by lia.
      pose proof (StronglySorted_lookup_lt _ _ _ _ _ _ Hs Hj Hi Hji) as Hd.
      unfold desc in Hd. lia.
  - intros T1 T2 -> Hown Hlt.
    apply (sorted_pair_desc Task.created_at); [|done|done].
    rewrite Hp. unfold selected. rewrite <- Hown.
    erewrite list_filter_iff; [done|]. intros x. cbn. tauto.
Qed.

Lemma get_user_tasks_newest_first_witness :
  TaskService.get_user_tasks 1 None db_two_tasks = (Ok [task2; task1], db_two_tasks).
Proof.
  destruct (get_user_tasks_newest_first 1 None db_two_tasks)
    as (l & Hl & _ & _ & _ & Hpair).
  rewrite Hl. rewrite (Hpair task1 task2); [reflexivity|reflexivity| |].
  - reflexivity.
  - unfold task1, task2. simpl. lia.
Defined.

(** The scenario of [test_get_user_tasks_with_data]: two creations in a
    row for a user without tasks, the clock advancing in between. *)
Lemma get_user_tasks_after_two_creations now1 now2 d1 d2 db uid u :
  UserService.get_user_by_id uid db = (Ok (Some u), db) ->
  TaskCreate.user_id d1 = uid ->
  TaskCreate.user_id d2 = uid ->
  filter (fun x => Task.user_id x = uid) (tasks db) = [] ->
  now1 < now2 ->
  exists T1 T2 db1 db2,
    TaskService.create_task now1 d1 db = (Ok (Some T1), db1) /\
    TaskService.create_task now2 d2 db1 = (Ok (Some T2), db2) /\
    TaskService.get_user_tasks uid None db2 = (Ok [T2; T1], db2).
Proof.
  intros Hu H1 H2 Hnone Hlt.
  rewrite get_user_by_id_eq in Hu. injection Hu as Hu.
  set (T1 := created_task now1 d1 db).
  set (db1 := set_tasks (tasks db ++ [T1]) db).
  set (T2 := created_task now2 d2 db1).
  set (db2 := set_tasks (tasks db1 ++ [T2]) db1).
  exists T1, T2, db1, db2.
  rewrite !create_task_eq, H1, H2, Hu.
  split; [done|]. split.
  { change (lookup_user uid db1) with (lookup_user uid db). by rewrite Hu. }
  destruct (get_user_tasks_Permutation uid None db2) as (l & Hl & Hp & Hs).
  rewrite Hl. do 2 f_equal.
  apply (sorted_pair_desc Task.created_at); [|done|done].
  rewrite Hp. unfold selected. cbn [tasks set_tasks db2 db1].
  rewrite !filter_app.
  erewrite (list_filter_iff _ (fun x => Task.user_id x = uid) (tasks db));
    [|intros x; cbn; tauto].
  rewrite Hnone. cbn [app].
  rewrite !filter_cons_True by (cbn; done). done.
Qed.

(** ** C3: the completion filter *)

(** C3. When the tasks of a user are exactly one active task [ta] and
    one completed task [tc], the listing filtered on [completed = True]
    is [[tc]], the one filtered on [completed = False] is [[ta]], and the
    unfiltered listing holds both and nothing else. *)
Theorem get_user_tasks_filtered (user_id : Z) (db : Db) (ta tc : Task.t) :
  filter (fun x => Task.user_id x = user_id) (tasks db) ≡ₚ [ta; tc] ->
  Task.completed ta = false ->
  Task.completed tc = true ->
  TaskService.get_user_tasks user_id (Some true) db = (Ok [tc], db) /\
  TaskService.get_user_tasks user_id (Some false) db = (Ok [ta], db) /\
  exists l, TaskService.get_user_tasks user_id None db = (Ok l, db) /\ l ≡ₚ [ta; tc].
Proof.
  intros Hown Ha Hc. rewrite !get_user_tasks_eq. repeat split.
  - do 2 f_equal. apply Permutation_singleton_r.
    rewrite merge_sort_Permutation, Hown.
    rewrite filter_cons_False by congruence.
    rewrite filter_cons_True by done. done.
  - do 2 f_equal. apply Permutation_singleton_r.
    rewrite merge_sort_Permutation, Hown.
    rewrite filter_cons_True by done.
    rewrite filter_cons_False by congruence. done.
  - eexists. split; [reflexivity|].
    by rewrite merge_sort_Permutation.
Qed.

Lemma get_user_tasks_filtered_witness :
  TaskService.get_user_tasks 1 (Some true) db_filtering = (Ok [task_done], db_filtering) /\
  TaskService.get_user_tasks 1 (Some false) db_filtering = (Ok [task_active], db_filtering) /\
  exists l, TaskService.get_user_tasks 1 None db_filtering = (Ok l, db_filtering)
            /\ l ≡ₚ [task_active; task_done].
Proof.
  apply (get_user_tasks_filtered 1 db_filtering task_active task_done);
    reflexivity.
Defined.

(** ** C4: toggling twice *)

Lemma lookup_task_write_back k x y db :
  Task.id y = Some k ->
  lookup_task k db = Some x ->
  lookup_task k (set_tasks (write_back Task.id k y (tasks db)) db) = Some y.
Proof. intros Hy Hx. by apply (get_write_back Task.id _ k y x). Qed.

Lemma lookup_task_write_back_ne k k' y db :
  Task.id y = Some k -> k' <> k ->
  lookup_task k' (set_tasks (write_back Task.id k y (tasks db)) db) = lookup_task k' db.
Proof.
  intros Hy Hne. unfold lookup_task. cbn [tasks set_tasks].
  by rewrite filter_write_back_ne.
Qed.

Lemma timestamps_ok_mono clk clk' db :
  clk <= clk' -> timestamps_ok clk db -> timestamps_ok clk' db.
Proof.
  intros Hle Hok. unfold timestamps_ok in *.
  eapply Forall_impl; [exact Hok|].
  intros x [Hc Hu]. split; [lia|done].
Qed.

Lemma elem_of_write_back {A} (id : A -> option Z) k (x y : A) rows :
  y ∈ write_back id k x rows -> y = x \/ y ∈ rows.
Proof.
  unfold write_back. intros Hy. apply list_elem_of_fmap in Hy as (r & -> & Hr).
  case_decide; [by left|by right].
Qed.

Lemma timestamps_ok_write_back clk k x x' db :
  timestamps_ok clk db ->
  x ∈ tasks db ->
  Task.created_at x' = Task.created_at x ->
  Task.updated_at x' = Some clk ->
  timestamps_ok clk (set_tasks (write_back Task.id k x' (tasks db)) db).
Proof.
  unfold timestamps_ok. rewrite !Forall_forall. cbn [tasks set_tasks].
  intros Hok Hx Hc Hu y Hy.
  apply elem_of_write_back in Hy as [->|Hy]; [|by apply Hok].
  destruct (Hok x Hx) as [Hcx _]. rewrite Hc, Hu. split; [done|].
  intros u [= <-]. done.
Qed.

Lemma timestamps_ok_serve clk now r db :
  clk <= now -> timestamps_ok clk db -> timestamps_ok now (serve now r db).
Proof.
  intros Hle Hok. apply (timestamps_ok_mono _ _ _ Hle) in Hok.
  destruct r as [d| |d|k d|k|k]; cbn [serve].
  - rewrite create_user_eq. by destruct (lookup_email _ db).
  - rewrite get_or_create_default_user_eq. by destruct (lookup_email _ db).
  - rewrite create_task_eq. destruct (lookup_user _ db); [|done].
    unfold timestamps_ok in *. cbn [snd tasks set_tasks].
    apply Forall_app. split; [done|]. repeat constructor; cbn; [lia|done].
  - rewrite update_task_eq. destruct (lookup_task k db) as [x|] eqn:Hx; [|done].
    destruct (passes_none d); [done|]. cbn [snd].
    apply (timestamps_ok_write_back now k x); try done.
    by apply (get_has_id Task.id _ _ _ Hx).
  - rewrite toggle_task_completion_eq.
    destruct (lookup_task k db) as [x|] eqn:Hx; [|done]. cbn [snd].
    apply (timestamps_ok_write_back now k x); try done.
    by apply (get_has_id Task.id _ _ _ Hx).
  - rewrite delete_task_eq. destruct (lookup_task k db); [|done].
    unfold timestamps_ok in *. cbn [snd tasks set_tasks].
    rewrite Forall_forall in *. intros y Hy.
    apply list_elem_of_filter in Hy as [_ Hy]. by apply Hok.
Qed.

Lemma timestamps_ok_replay_from history now db clk :
  timestamps_ok clk db ->
  StronglySorted Z.le (clk :: history.*1 ++ [now]) ->
  timestamps_ok now (replay history db).
Proof.
  unfold replay. revert db clk.
  induction history as [|[t r] history IH]; intros db clk Hok Hs; cbn.
  - apply (timestamps_ok_mono clk); [|done].
    apply StronglySorted_cons in Hs as [Hs _].
    by apply Forall_inv in Hs.
  - cbn in Hs. apply StronglySorted_cons in Hs as [Hle Hs].
    apply Forall_inv in Hle.
    apply (IH _ t); [|done]. by apply (timestamps_ok_serve clk).
Qed.

(** Under a clock that does not go backwards, every database the store
    operations build from the empty one keeps the timestamps in order. *)
Lemma timestamps_ok_replay history now :
  clock_monotone history now ->
  timestamps_ok now (replay history empty_db).
Proof.
  unfold clock_monotone. intros Hs.
  apply (timestamps_ok_replay_from _ _ _ (hd now (history.*1 ++ [now]))).
  - constructor.
  - destruct history as [|[t r] history]; cbn in *.
    + repeat constructor. lia.
    + constructor; [done|]. constructor; [lia|].
      by apply StronglySorted_cons in Hs as [? _].
Qed.

(** C4. For a stored task [x] with primary key [k], two calls of
    [toggle_task_completion] both return a task: the first with the
    flag negated and [updated_at] set to the clock reading [now1] of the
    call, the second with the flag [x] had; each returned task is the
    one then stored under [k], and no other field changes.  When the
    database is the outcome of a history of store operations on the
    empty database and the clock has not gone backwards, up to and
    including the first toggle, that [updated_at] is not earlier than
    [created_at]. *)
Theorem toggle_task_completion_twice (now1 now2 : datetime) (k : Z) (db : Db) (x : Task.t) :
  TaskService.get_task_by_id k db = (Ok (Some x), db) ->
  exists (x1 x2 : Task.t) (db1 db2 : Db),
    TaskService.toggle_task_completion now1 k db = (Ok (Some x1), db1) /\
    TaskService.toggle_task_completion now2 k db1 = (Ok (Some x2), db2) /\
    Task.completed x1 = negb (Task.completed x) /\
    Task.completed x2 = Task.completed x /\
    Task.updated_at x1 = Some now1 /\
    TaskService.get_task_by_id k db1 = (Ok (Some x1), db1) /\
    TaskService.get_task_by_id k db2 = (Ok (Some x2), db2) /\
    x1 = Task.set_updated_at (Some now1) (Task.set_completed (negb (Task.completed x)) x) /\
    x2 = Task.set_updated_at (Some now2) x /\
    (forall history : list (datetime * request),
        db = replay history empty_db ->
        clock_monotone history now1 ->
        exists u, Task.updated_at x1 = Some u /\ Task.created_at x1 <= u).
Proof.
  intros Hx. apply get_task_by_id_Some in Hx.
  destruct (get_has_id _ _ _ _ Hx) as [Hk Hin].
  set (x1 := toggled_task now1 x).
  set (db1 := set_tasks (write_back Task.id k x1 (tasks db)) db).
  set (x2 := toggled_task now2 x1).
  set (db2 := set_tasks (write_back Task.id k x2 (tasks db1)) db1).
  assert (H1 : lookup_task k db1 = Some x1)
    by (by apply (lookup_task_write_back k x)).
  assert (H2 : lookup_task k db2 = Some x2)
    by (by apply (lookup_task_write_back k x1)).
  exists x1, x2, db1, db2.
  rewrite !get_task_by_id_eq, !toggle_task_completion_eq, Hx, H1, H2.
  repeat split; try done.
  - cbn. by rewrite negb_involutive.
  - subst x2 x1. unfold toggled_task. cbn. rewrite negb_involutive. by destruct x.
  - intros history -> Hclock. exists now1. split; [done|].
    pose proof (timestamps_ok_replay history now1 Hclock) as Hok.
    unfold timestamps_ok in Hok. rewrite Forall_forall in Hok.
    by destruct (Hok x Hin).
Qed.

Lemma toggle_task_completion_twice_witness :
  exists x1 x2 db1 db2,
    TaskService.toggle_task_completion 40 2 db_two_tasks = (Ok (Some x1), db1) /\
    TaskService.toggle_task_completion 50 2 db1 = (Ok (Some x2), db2) /\
    Task.completed x1 = true /\ Task.completed x2 = false /\
    exists u, Task.updated_at x1 = Some u /\ Task.created_at x1 <= u.
Proof.
  destruct (toggle_task_completion_twice 40 50 2 db_two_tasks task2 eq_refl)
    as (x1 & x2 & db1 & db2 & H1 & H2 & Hc1 & Hc2 & _ & _ & _ & _ & _ & Hts).
  exists x1, x2, db1, db2. repeat split; try assumption.
  apply (Hts history_two_tasks).
  - reflexivity.
  - unfold clock_monotone, history_two_tasks. simpl.
    repeat constructor; lia.
Defined.

(** ** C5 and C10: partial updates *)

Lemma update_task_existing now k d db x :
  lookup_task k db = Some x ->
  passes_none d = false ->
  let x' := updated_task now d x in
  let db' := set_tasks (write_back Task.id k x' (tasks db)) db in
  TaskService.update_task now k d db = (Ok (Some x'), db') /\
  TaskService.get_task_by_id k db' = (Ok (Some x'), db') /\
  users db' = users db /\
  forall k', k' <> k -> lookup_task k' db' = lookup_task k' db.
Proof.
  intros Hx Hd x' db'. destruct (get_has_id _ _ _ _ Hx) as [Hk _].
  rewrite update_task_eq, Hx, Hd, get_task_by_id_eq.
  repeat split.
  - do 2 f_equal. by apply (lookup_task_write_back k x).
  - intros k' Hne. by apply lookup_task_write_back_ne.
Qed.

(** C5. For a stored task [x] with primary key [k]: an update that
    supplies only a title [s] returns the task with title [s], the
    description and the flag of [x], and [updated_at] present.  In
    general, an update whose supplied fields all hold a value returns
    the task where a supplied field has the supplied value, an unset
    field the value it had, [id], [user_id] and [created_at] are those
    of [x] and [updated_at] is the clock reading of the call; the
    returned task is the one then stored under [k], and the users and
    the tasks under other keys are as before. *)
Theorem update_task_partial (now : datetime) (k : Z) (db : Db) (x : Task.t) :
  TaskService.get_task_by_id k db = (Ok (Some x), db) ->
  (forall s : string,
      exists (x' : Task.t) (db' : Db),
        TaskService.update_task now k
          {| TaskUpdate.title := Supplied (Some s);
             TaskUpdate.description := Unset;
             TaskUpdate.completed := Unset |} db = (Ok (Some x'), db') /\
        Task.title x' = s /\
        Task.description x' = Task.description x /\
        Task.completed x' = Task.completed x /\
        Task.updated_at x' <> None) /\
  (forall d : TaskUpdate.t,
      TaskUpdate.title d <> Supplied None ->
      TaskUpdate.description d <> Supplied None ->
      TaskUpdate.completed d <> Supplied None ->
      exists (x' : Task.t) (db' : Db),
        TaskService.update_task now k d db = (Ok (Some x'), db') /\
        TaskService.get_task_by_id k db' = (Ok (Some x'), db') /\
        Task.title x' =
          match TaskUpdate.title d with
          | Supplied (Some v) => v
          | _ => Task.title x
          end /\
        Task.description x' =
          match TaskUpdate.description d with
          | Supplied (Some v) => v
          | _ => Task.description x
          end /\
        Task.completed x' =
          match TaskUpdate.completed d with
          | Supplied (Some v) => v
          | _ => Task.completed x
          end /\
        Task.id x' = Task.id x /\
        Task.user_id x' = Task.user_id x /\
        Task.created_at x' = Task.created_at x /\
        Task.updated_at x' = Some now /\
        users db' = users db /\
        forall k', k' <> k ->
          fst (TaskService.get_task_by_id k' db') = fst (TaskService.get_task_by_id k' db)).
Proof.
  intros Hx. apply get_task_by_id_Some in Hx. split.
  - intros s.
    destruct (update_task_existing now k
                (TaskUpdate.mk (Supplied (Some s)) Unset Unset) db x Hx eq_refl)
      as (Hu & _).
    eexists _, _. split; [exact Hu|]. done.
  - intros d Ht Hd Hc.
    assert (Hn : passes_none d = false).
    { destruct d as [[|[?|]] [|[?|]] [|[?|]]]; done. }
    destruct (update_task_existing now k d db x Hx Hn) as (Hu & Hg & Hus & Hfr).
    eexists _, _. split; [exact Hu|]. split; [exact Hg|].
    repeat split; try done.
    intros k' Hne. rewrite !get_task_by_id_eq. cbn [fst]. by f_equal; apply Hfr.
Qed.

Lemma update_task_partial_witness :
  exists x' db',
    TaskService.update_task 60 1 (TaskUpdate.mk (Supplied (Some "New Title")) Unset Unset)
      db_original = (Ok (Some x'), db') /\
    Task.title x' = "New Title" /\
    Task.description x' = "Original Description" /\
    Task.completed x' = false /\
    Task.updated_at x' = Some 60.
Proof.
  destruct (update_task_partial 60 1 db_original task_original eq_refl) as [_ Hgen].
  destruct (Hgen (TaskUpdate.mk (Supplied (Some "New Title")) Unset Unset))
    as (x' & db' & Hu & _ & Ht & Hd & Hc & _ & _ & _ & Hup & _);
    [discriminate..|].
  exists x', db'. repeat split; assumption.
Defined.

(** C10. For a stored task [x] with primary key [k]: an update in which
    no field was set returns the task, with title, description and flag
    as they were and [updated_at] the clock reading of the call, also
    when [x] already had one; an update that supplies [completed=False]
    returns the task with the flag false, whatever it was, while leaving
    [completed] unset keeps the flag of [x]. *)
Theorem update_task_nothing_set (now : datetime) (k : Z) (db : Db) (x : Task.t) :
  TaskService.get_task_by_id k db = (Ok (Some x), db) ->
  (exists (x' : Task.t) (db' : Db),
      TaskService.update_task now k
        {| TaskUpdate.title := Unset;
           TaskUpdate.description := Unset;
           TaskUpdate.completed := Unset |} db = (Ok (Some x'), db') /\
      TaskService.get_task_by_id k db' = (Ok (Some x'), db') /\
      Task.title x' = Task.title x /\
      Task.description x' = Task.description x /\
      Task.completed x' = Task.completed x /\
      Task.updated_at x' = Some now /\
      x' = Task.set_updated_at (Some now) x) /\
  (exists (x' : Task.t) (db' : Db),
      TaskService.update_task now k
        {| TaskUpdate.title := Unset;
           TaskUpdate.description := Unset;
           TaskUpdate.completed := Supplied (Some false) |} db = (Ok (Some x'), db') /\
      TaskService.get_task_by_id k db' = (Ok (Some x'), db') /\
      Task.completed x' = false /\
      x' = Task.set_updated_at (Some now) (Task.set_completed false x)).
Proof.
  intros Hx. apply get_task_by_id_Some in Hx. split.
  - destruct (update_task_existing now k (TaskUpdate.mk Unset Unset Unset)
                db x Hx eq_refl) as (Hu & Hg & _).
    eexists _, _. split; [exact Hu|]. split; [exact Hg|].
    repeat split.
  - destruct (update_task_existing now k
                (TaskUpdate.mk Unset Unset (Supplied (Some false)))
                db x Hx eq_refl) as (Hu & Hg & _).
    eexists _, _. split; [exact Hu|]. split; [exact Hg|].
    repeat split.
Qed.

Lemma update_task_nothing_set_witness :
  (exists x' db',
      TaskService.update_task 70 2 (TaskUpdate.mk Unset Unset Unset) db_filtering
      = (Ok (Some x'), db') /\
      Task.completed x' = true /\ Task.updated_at x' = Some 70) /\
  (exists x' db',
      TaskService.update_task 70 2 (TaskUpdate.mk Unset Unset (Supplied (Some false)))
        db_filtering = (Ok (Some x'), db') /\
      Task.completed x' = false).
Proof.
  destruct (update_task_nothing_set 70 2 db_filtering task_done eq_refl)
    as [(x1 & d1 & Hu1 & _ & _ & _ & Hc1 & Hup1 & _) (x2 & d2 & Hu2 & _ & Hc2 & _)].
  split.
  - exists x1, d1. repeat split; assumption.
  - exists x2, d2. split; assumption.
Defined.

(** ** C6: deleting a task *)

(** C6. When a task is stored under [k], [delete_task k] returns
    [True] and afterwards [get_task_by_id k] returns [None], the users
    and the tasks under other keys being as before.  When none is,
    [delete_task k] returns [False], does not raise, and leaves the
    database as it was. *)
Theorem delete_task_spec (k : Z) (db : Db) :
  (forall x : Task.t,
      TaskService.get_task_by_id k db = (Ok (Some x), db) ->
      exists db' : Db,
        TaskService.delete_task k db = (Ok true, db') /\
        TaskService.get_task_by_id k db' = (Ok None, db') /\
        users db' = users db /\
        forall k', k' <> k ->
          fst (TaskService.get_task_by_id k' db') = fst (TaskService.get_task_by_id k' db)) /\
  (TaskService.get_task_by_id k db = (Ok None, db) ->
   TaskService.delete_task k db = (Ok false, db)).
Proof.
  split.
  - intros x Hx. apply get_task_by_id_Some in Hx.
    eexists. rewrite delete_task_eq, Hx. split; [reflexivity|].
    rewrite get_task_by_id_eq. repeat split.
    + do 2 f_equal. unfold lookup_task. cbn [tasks set_tasks].
      by rewrite get_after_delete.
    + intros k' Hne. rewrite !get_task_by_id_eq. cbn [fst]. f_equal.
      unfold lookup_task. cbn [tasks set_tasks].
      by rewrite get_other_after_delete.
  - intros Hx. apply get_task_by_id_None in Hx.
    by rewrite delete_task_eq, Hx.
Qed.

Lemma delete_task_spec_witness :
  (exists db',
      TaskService.delete_task 1 db_two_tasks = (Ok true, db') /\
      TaskService.get_task_by_id 1 db' = (Ok None, db')) /\
  TaskService.delete_task 999 db_two_tasks = (Ok false, db_two_tasks).
Proof.
  split.
  - destruct (delete_task_spec 1 db_two_tasks) as [Hex _].
    destruct (Hex task1 eq_refl) as (db' & Hd & Hg & _).
    exists db'. split; assumption.
  - destruct (delete_task_spec 999 db_two_tasks) as [_ Habs].
    apply Habs. reflexivity.
Defined.

(** ** C9: ownership isolation *)

Lemma create_task_appends now d db :
  exists r db',
    TaskService.create_task now d db = (Ok r, db') /\
    users db' = users db /\
    tasks db' = tasks db ++ from_option (fun x => [x]) [] r /\
    forall x, r = Some x -> Task.user_id x = TaskCreate.user_id d.
Proof.
  rewrite create_task_eq. destruct (lookup_user _ db).
  - eexists _, _. split; [reflexivity|]. repeat split.
    intros x [= <-]. done.
  - exists None, db. repeat split; [|done]. cbn. by rewrite app_nil_r.
Qed.

Lemma create_tasks_spec reqs db :
  exists rs db',
    create_tasks reqs db = (Ok rs, db') /\
    (exists new, tasks db' = tasks db ++ new) /\
    forall (i : nat) now d x,
      reqs !! i = Some (now, d) -> rs !! i = Some (Some x) ->
      Task.user_id x = TaskCreate.user_id d /\ x ∈ tasks db'.
Proof.
  revert db. induction reqs as [|[now0 d0] reqs IH]; intros db.
  - exists [], db. split; [done|]. split.
    + exists []. by rewrite app_nil_r.
    + intros i now d x Hi. by rewrite lookup_nil in Hi.
  - destruct (create_task_appends now0 d0 db) as (r & db0 & Hc & _ & Ht & Hr).
    destruct (IH db0) as (rs & db' & Hcs & (new & Hnew) & Hall).
    exists (r :: rs), db'. split; [|split].
    + cbn [create_tasks]. unfold mbind, M_bind. rewrite Hc, Hcs. done.
    + eexists. rewrite Hnew, Ht, <- app_assoc. done.
    + intros [|i] now d x Hi Hx; cbn in Hi, Hx.
      * injection Hi as -> ->. injection Hx as ->. split; [by apply Hr|].
        rewrite Hnew, Ht. cbn. rewrite !elem_of_app, elem_of_cons. tauto.
      * by apply (Hall i now d x).
Qed.

(** C9. Let [db'] be the database after any sequence of task creations
    from any database, and [a], [b] two different user ids.  Every task
    of a listing for [a] has [user_id = a].  A task that one of these
    creations returned for a request with [user_id = a] is not in any
    listing for [b], and it is in the unfiltered listing for [a]. *)
Theorem get_user_tasks_isolation (reqs : list (datetime * TaskCreate.t))
    (db : Db) (a b : Z) :
  a <> b ->
  exists (rs : list (option Task.t)) (db' : Db),
    create_tasks reqs db = (Ok rs, db') /\
    forall completed : option bool,
      exists la lb : list Task.t,
        TaskService.get_user_tasks a completed db' = (Ok la, db') /\
        TaskService.get_user_tasks b completed db' = (Ok lb, db') /\
        (forall x, x ∈ la -> Task.user_id x = a) /\
        (forall x, x ∈ lb -> Task.user_id x = b) /\
        forall (i : nat) now task_data x,
          reqs !! i = Some (now, task_data) ->
          TaskCreate.user_id task_data = a ->
          rs !! i = Some (Some x) ->
          (x ∉ lb) /\ (completed = None -> x ∈ la).
Proof.
  intros Hab.
  destruct (create_tasks_spec reqs db) as (rs & db' & Hcs & _ & Hall).
  exists rs, db'. split; [done|]. intros c.
  destruct (get_user_tasks_Permutation a c db') as (la & Hla & Hpa & _).
  destruct (get_user_tasks_Permutation b c db') as (lb & Hlb & Hpb & _).
  exists la, lb. split; [done|]. split; [done|].
  assert (Hin : forall uid l x, l ≡ₚ selected uid c db' -> x ∈ l -> Task.user_id x = uid).
  { intros uid l x Hp Hx. rewrite Hp in Hx.
    apply list_elem_of_filter in Hx. tauto. }
  split; [by eauto|]. split; [by eauto|].
  intros i now d x Hi Hd Hx.
  destruct (Hall i now d x Hi Hx) as [Hu Hmem]. split.
  - intros Hxb. apply (Hin b lb x Hpb) in Hxb. congruence.
  - intros ->. rewrite Hpa. apply list_elem_of_filter.
    split; [|done]. split; [congruence|done].
Qed.

Lemma get_user_tasks_isolation_witness :
  exists rs db',
    create_tasks [(20, TaskCreate.mk "User 1 Task" "" 1);
                  (21, TaskCreate.mk "User 2 Task" "" 2);
                  (22, TaskCreate.mk "User 1 Task, again" "" 1)] db_two_users
    = (Ok rs, db') /\
    exists la lb,
      TaskService.get_user_tasks 1 None db' = (Ok la, db') /\
      TaskService.get_user_tasks 2 None db' = (Ok lb, db') /\
      (forall x, x ∈ la -> Task.user_id x = 1) /\
      (forall x, x ∈ lb -> Task.user_id x = 2).
Proof.
  destruct (get_user_tasks_isolation
              [(20, TaskCreate.mk "User 1 Task" "" 1);
               (21, TaskCreate.mk "User 2 Task" "" 2);
               (22, TaskCreate.mk "User 1 Task, again" "" 1)] db_two_users 1 2)
    as (rs & db' & Hcs & Hlist); [lia|].
  exists rs, db'. split; [exact Hcs|].
  destruct (Hlist None) as (la & lb & Ha & Hb & Hua & Hub & _).
  exists la, lb. repeat split; assumption.
Defined.

(** ** The scenarios of tests/test_task_service.py and tests/test_user_service.py *)

(** Each scenario starts from the empty database, with clock readings
    that increase from call to call. *)

Example test_create_user_success :
  fst (UserService.create_user 10 (UserCreate.mk "John Doe" "john@example.com") empty_db)
  = Ok (Some (User.mk (Some 1) "John Doe" "john@example.com" true 10)).
Proof. reflexivity. Qed.

Example test_create_user_duplicate_email :
  let db1 := snd (UserService.create_user 10 (UserCreate.mk "John Doe" "john@example.com") empty_db) in
  UserService.create_user 11 (UserCreate.mk "Jane Doe" "john@example.com") db1 = (Ok None, db1).
Proof. reflexivity. Qed.

Example test_get_or_create_default_user_returns_existing :
  let '(first_call, db1) := UserService.get_or_create_default_user 10 empty_db in
  let '(second_call, db2) := UserService.get_or_create_default_user 11 db1 in
  first_call = Ok (User.mk (Some 1) "Default User" "default@todo.app" true 10)
  /\ second_call = first_call /\ db2 = db1.
Proof. repeat split. Qed.

Example test_create_task_success :
  fst (TaskService.create_task 20
         (TaskCreate.mk "Complete project" "Finish the todo application" 1) sample_user_db)
  = Ok (Some (Task.mk (Some 1) "Complete project" "Finish the todo application"
                false 1 20 None)).
Proof. reflexivity. Qed.

Example test_create_task_nonexistent_user :
  TaskService.create_task 20 (TaskCreate.mk "Test task" "This should fail" 999) empty_db
  = (Ok None, empty_db).
Proof. reflexivity. Qed.

Example test_get_user_tasks_with_data :
  let db1 := snd (TaskService.create_task 20 (TaskCreate.mk "Task 1" "" 1) sample_user_db) in
  let db2 := snd (TaskService.create_task 30 (TaskCreate.mk "Task 2" "" 1) db1) in
  Task.title <$> default [] (match fst (TaskService.get_user_tasks 1 None db2) with
                             | Ok l => Some l
                             | Raise _ => None
                             end)
  = ["Task 2"; "Task 1"].
Proof. reflexivity. Qed.

Example test_get_user_tasks_filtered_by_completion :
  let db1 := snd (TaskService.create_task 20 (TaskCreate.mk "Active Task" "" 1) sample_user_db) in
  let db2 := snd (TaskService.create_task 30 (TaskCreate.mk "Completed Task" "" 1) db1) in
  let db3 := snd (TaskService.toggle_task_completion 40 2 db2) in
  fst (TaskService.get_user_tasks 1 (Some false) db3)
  = Ok [Task.mk (Some 1) "Active Task" "" false 1 20 None]
  /\ fst (TaskService.get_user_tasks 1 (Some true) db3)
     = Ok [Task.mk (Some 2) "Completed Task" "" true 1 30 (Some 40)]
  /\ fst (TaskService.get_user_tasks 1 None db3)
     = Ok [Task.mk (Some 2) "Completed Task" "" true 1 30 (Some 40);
           Task.mk (Some 1) "Active Task" "" false 1 20 None].
Proof. repeat split. Qed.

Example test_update_task_partial :
  let db1 := snd (TaskService.create_task 20
                    (TaskCreate.mk "Original Title" "Original Description" 1)
                    sample_user_db) in
  fst (TaskService.update_task 30 1 (TaskUpdate.mk (Supplied (Some "New Title")) Unset Unset) db1)
  = Ok (Some (Task.mk (Some 1) "New Title" "Original Description" false 1 20 (Some 30))).
Proof. reflexivity. Qed.

Example test_update_task_not_exists :
  TaskService.update_task 30 999 (TaskUpdate.mk (Supplied (Some "New Title")) Unset Unset)
    empty_db
  = (Ok None, empty_db).
Proof. reflexivity. Qed.

Example test_toggle_task_completion_success :
  let db1 := snd (TaskService.create_task 20 (TaskCreate.mk "Test Task" "" 1) sample_user_db) in
  let '(r1, db2) := TaskService.toggle_task_completion 30 1 db1 in
  let '(r2, _) := TaskService.toggle_task_completion 40 1 db2 in
  r1 = Ok (Some (Task.mk (Some 1) "Test Task" "" true 1 20 (Some 30)))
  /\ r2 = Ok (Some (Task.mk (Some 1) "Test Task" "" false 1 20 (Some 40))).
Proof. repeat split. Qed.

Example test_delete_task_success :
  let db1 := snd (TaskService.create_task 20 (TaskCreate.mk "To Delete" "" 1) sample_user_db) in
  let '(success, db2) := TaskService.delete_task 1 db1 in
  success = Ok true /\ fst (TaskService.get_task_by_id 1 db2) = Ok None.
Proof. repeat split. Qed.

Example test_delete_task_not_exists :
  TaskService.delete_task 999 empty_db = (Ok false, empty_db).
Proof. reflexivity. Qed.

Example test_multiple_users_tasks_isolation :
  let db1 := snd (UserService.create_user 10 (UserCreate.mk "User 1" "user1@example.com") empty_db) in
  let db2 := snd (UserService.create_user 11 (UserCreate.mk "User 2" "user2@example.com") db1) in
  let db3 := snd (TaskService.create_task 20 (TaskCreate.mk "User 1 Task" "" 1) db2) in
  let db4 := snd (TaskService.create_task 21 (TaskCreate.mk "User 2 Task" "" 2) db3) in
  fst (TaskService.get_user_tasks 1 None db4)
  = Ok [Task.mk (Some 1) "User 1 Task" "" false 1 20 None]
  /\ fst (TaskService.get_user_tasks 2 None db4)
     = Ok [Task.mk (Some 2) "User 2 Task" "" false 2 21 None].
Proof. repeat split. Qed.

(** A field passed as [None] is not the same as a field left unset: the
    assignment reaches a column that is not nullable and the scope ends
    with [IntegrityError], the database being as before. *)
Example update_task_title_None :
  let db1 := snd (TaskService.create_task 20 (TaskCreate.mk "Title" "" 1) sample_user_db) in
  TaskService.update_task 30 1 (TaskUpdate.mk (Supplied None) Unset Unset) db1
  = (Raise IntegrityError, db1).
Proof. reflexivity. Qed.

(** * Further properties of the store and of the page *)

(** ** How a call changes the tables *)

(** What a call does to the [users] table: nothing, or one more row. *)
Lemma serve_users now r db :
  users (serve now r db) = users db \/
  exists u,
    users (serve now r db) = users db ++ [u] /\
    tasks (serve now r db) = tasks db /\
    User.id u = Some (next_id (User.id <$> users db)) /\
    User.is_active u = true /\
    User.created_at u = now /\
    Forall (fun v => User.email v <> User.email u) (users db).
Proof.
  destruct r as [d| |d|k d|k|k]; cbn [serve].
  - rewrite create_user_eq.
    destruct (lookup_email _ db) eqn:He; [by left|]. right.
    eexists. repeat split. by apply lookup_email_None in He.
  - rewrite get_or_create_default_user_eq.
    destruct (lookup_email _ db) eqn:He; [by left|]. right.
    eexists. repeat split. by apply lookup_email_None in He.
  - rewrite create_task_eq. by destruct (lookup_user _ db); left.
  - rewrite update_task_eq. destruct (lookup_task k db); [|by left].
    by destruct (passes_none d); left.
  - rewrite toggle_task_completion_eq. by destruct (lookup_task k db); left.
  - rewrite delete_task_eq. by destruct (lookup_task k db); left.
Qed.

(** What a call does to the [tasks] table: nothing, one more row, one
    key written back, or one key removed. *)
Lemma serve_tasks now r db :
  tasks (serve now r db) = tasks db \/
  (exists x u,
      tasks (serve now r db) = tasks db ++ [x] /\
      users (serve now r db) = users db /\
      Task.id x = Some (next_id (Task.id <$> tasks db)) /\
      u ∈ users db /\ User.id u = Some (Task.user_id x) /\
      Task.created_at x = now /\ Task.updated_at x = None /\
      Task.completed x = false) \/
  (exists k x x',
      tasks (serve now r db) = write_back Task.id k x' (tasks db) /\
      lookup_task k db = Some x /\ Task.id x' = Some k /\
      Task.user_id x' = Task.user_id x /\
      Task.created_at x' = Task.created_at x /\
      Task.updated_at x' = Some now) \/
  (exists k, tasks (serve now r db) = filter (fun y => ¬ has_id Task.id k y) (tasks db)).
Proof.
  destruct r as [d| |d|k d|k|k]; cbn [serve].
  - rewrite create_user_eq. by destruct (lookup_email _ db); left.
  - rewrite get_or_create_default_user_eq. by destruct (lookup_email _ db); left.
  - rewrite create_task_eq. unfold lookup_user.
    destruct (head _) as [u|] eqn:Hu; [|by left].
    apply get_has_id in Hu as [Hid Hin].
    right; left. exists (created_task now d db), u. by repeat split.
  - rewrite update_task_eq. destruct (lookup_task k db) as [x|] eqn:Hx; [|by left].
    destruct (passes_none d); [by left|].
    destruct (get_has_id _ _ _ _ Hx) as [Hid Hin].
    right; right; left. exists k, x, (updated_task now d x). by repeat split.
  - rewrite toggle_task_completion_eq.
    destruct (lookup_task k db) as [x|] eqn:Hx; [|by left].
    destruct (get_has_id _ _ _ _ Hx) as [Hid Hin].
    right; right; left. exists k, x, (toggled_task now x). by repeat split.
  - rewrite delete_task_eq. destruct (lookup_task k db); [|by left].
    right; right; right. by exists k.
Qed.

Lemma replay_cons now r history db :
  replay ((now, r) :: history) db = replay history (serve now r db).
Proof. reflexivity. Qed.

(** A property every call keeps is kept along a history. *)
Lemma replay_invariant (P : Db -> Prop) :
  (forall now r db, P db -> P (serve now r db)) ->
  forall history db, P db -> P (replay history db).
Proof.
  intros Hstep history. induction history as [|[now r] history IH]; intros db HP.
  - done.
  - rewrite replay_cons. by apply IH, Hstep.
Qed.

Lemma fmap_id_write_back {A} (id : A -> option Z) k x rows :
  id x = Some k -> id <$> write_back id k x rows = id <$> rows.
Proof.
  intros Hx. unfold write_back. rewrite <- list_fmap_compose.
  apply list_fmap_ext. intros i r _. cbn. case_decide as Hr; [|done].
  unfold has_id in Hr. congruence.
Qed.

Lemma next_id_not_elem {A} (id : A -> option Z) rows :
  Some (next_id (id <$> rows)) ∉ id <$> rows.
Proof.
  intros Hin. apply list_elem_of_fmap in Hin as (r & Hr & Hin).
  pose proof (next_id_above id rows r _ Hin (eq_sym Hr)). lia.
Qed.

Lemma keys_ok_snoc {A} (id : A -> option Z) rows x :
  keys_ok id rows -> id x = Some (next_id (id <$> rows)) -> keys_ok id (rows ++ [x]).
Proof.
  intros [Hs Hn] Hx. split.
  - apply Forall_app. split; [done|]. repeat constructor. by rewrite Hx.
  - rewrite fmap_app. apply NoDup_app. split; [done|]. split.
    + intros i Hi. cbn. rewrite list_elem_of_singleton. intros ->.
      rewrite Hx in Hi. by apply next_id_not_elem in Hi.
    + cbn. apply NoDup_singleton.
Qed.

Lemma keys_ok_write_back {A} (id : A -> option Z) rows k x :
  keys_ok id rows -> id x = Some k -> keys_ok id (write_back id k x rows).
Proof.
  intros [Hs Hn] Hx. split.
  - rewrite Forall_forall in *. intros y Hy.
    apply elem_of_write_back in Hy as [->|Hy]; [by rewrite Hx|by apply Hs].
  - by rewrite fmap_id_write_back.
Qed.

Lemma keys_ok_filter {A} (id : A -> option Z) rows (P : A -> Prop)
    `{!forall x, Decision (P x)} :
  keys_ok id rows -> keys_ok id (filter P rows).
Proof.
  intros [Hs Hn]. split.
  - rewrite Forall_forall in *. intros y Hy.
    apply list_elem_of_filter in Hy as [_ Hy]. by apply Hs.
  - apply (sublist_NoDup _ (id <$> rows)); [done|].
    apply fmap_sublist, sublist_filter.
Qed.

Lemma keys_ok_serve now r db :
  keys_ok User.id (users db) /\ keys_ok Task.id (tasks db) ->
  keys_ok User.id (users (serve now r db)) /\ keys_ok Task.id (tasks (serve now r db)).
Proof.
  intros [Hu Ht]. split.
  - destruct (serve_users now r db) as [->|(u & -> & _ & Hid & _)]; [done|].
    by apply keys_ok_snoc.
  - destruct (serve_tasks now r db)
      as [->|[(x & u & -> & _ & Hid & _)|[(k & x & x' & -> & _ & Hid & _)|[k ->]]]].
    + done.
    + by apply keys_ok_snoc.
    + by apply keys_ok_write_back.
    + by apply keys_ok_filter.
Qed.

Lemma emails_unique_serve now r db :
  emails_unique db -> emails_unique (serve now r db).
Proof.
  unfold emails_unique. intros Hn.
  destruct (serve_users now r db) as [->|(u & -> & _ & _ & _ & _ & Hfresh)]; [done|].
  rewrite fmap_app. apply NoDup_app. split; [done|]. split.
  - intros e He. cbn. rewrite list_elem_of_singleton. intros ->.
    apply list_elem_of_fmap in He as (v & Hv & Hin).
    rewrite Forall_forall in Hfresh. by destruct (Hfresh v Hin).
  - cbn. apply NoDup_singleton.
Qed.

Lemma owner_exists_mono (us us' : list User.t) (x : Task.t) :
  us `prefix_of` us' ->
  Exists (fun u => User.id u = Some (Task.user_id x)) us ->
  Exists (fun u => User.id u = Some (Task.user_id x)) us'.
Proof.
  intros [l ->] H. apply Exists_app. by left.
Qed.

Lemma serve_users_prefix now r db : users db `prefix_of` users (serve now r db).
Proof.
  destruct (serve_users now r db) as [->|(u & -> & _)]; [done|].
  by apply prefix_app_r.
Qed.

Lemma owners_exist_serve now r db :
  owners_exist db -> owners_exist (serve now r db).
Proof.
  unfold owners_exist. intros Ho.
  assert (Hold : Forall (fun x => Exists (fun u => User.id u = Some (Task.user_id x))
                                    (users (serve now r db))) (tasks db)).
  { eapply Forall_impl; [exact Ho|]. intros x.
    apply owner_exists_mono, serve_users_prefix. }
  destruct (serve_tasks now r db)
    as [->|[(x & u & -> & Hus & _ & Hin & Hid & _)
           |[(k & x & x' & -> & Hx & _ & Hown & _)|[k ->]]]].
  - done.
  - apply Forall_app. split; [done|]. repeat constructor.
    rewrite Hus. apply Exists_exists. by exists u.
  - rewrite Forall_forall in *. intros y Hy.
    apply elem_of_write_back in Hy as [->|Hy]; [|by apply Hold].
    destruct (get_has_id _ _ _ _ Hx) as [_ Hin].
    specialize (Hold x Hin). by rewrite Hown.
  - rewrite Forall_forall in *. intros y Hy.
    apply list_elem_of_filter in Hy as [_ Hy]. by apply Hold.
Qed.

Lemma filter_unique_key {A B} `{EqDecision B} (f : A -> B) (rows : list A) (x : A) :
  NoDup (f <$> rows) -> x ∈ rows -> filter (fun r => f r = f x) rows = [x].
Proof.
  induction rows as [|r rows IH]; intros Hn Hx; [by inversion Hx|].
  cbn in Hn. apply NoDup_cons in Hn as [Hr Hn].
  apply elem_of_cons in Hx as [<-|Hx].
  - rewrite filter_cons_True by done. f_equal.
    destruct (filter _ rows) as [|y l] eqn:E; [done|].
    assert (Hy : y ∈ filter (fun r => f r = f x) rows) by (rewrite E; left).
    apply list_elem_of_filter in Hy as [Hfy Hy].
    destruct Hr. rewrite <- Hfy. apply list_elem_of_fmap. eauto.
  - rewrite filter_cons_False; [by apply IH|].
    intros Hfr. destruct Hr. rewrite Hfr. apply list_elem_of_fmap. eauto.
Qed.

Lemma lookup_by_key {A} (id : A -> option Z) (rows : list A) (x : A) k :
  NoDup (id <$> rows) -> x ∈ rows -> id x = Some k ->
  head (filter (has_id id k) rows) = Some x.
Proof.
  intros Hn Hx Hk.
  erewrite (list_filter_iff _ (fun r => id r = id x)).
  - by rewrite filter_unique_key.
  - intros r. unfold has_id. by rewrite Hk.
Qed.

(** ** The store keeps its tables well formed *)

(** X1. Along any history of store calls, every stored user and task
    keeps having a primary key and no two rows of a table share one. *)
Theorem primary_keys_stay_unique (history : list (datetime * request)) (db : Db) :
  keys_ok User.id (users db) /\ keys_ok Task.id (tasks db) ->
  keys_ok User.id (users (replay history db)) /\
  keys_ok Task.id (tasks (replay history db)).
Proof.
  revert db.
  apply (replay_invariant
           (fun db => keys_ok User.id (users db) /\ keys_ok Task.id (tasks db))).
  intros now r db. apply keys_ok_serve.
Qed.

Lemma primary_keys_stay_unique_witness :
  keys_ok User.id (users db_two_tasks) /\ keys_ok Task.id (tasks db_two_tasks).
Proof.
  apply (primary_keys_stay_unique history_two_tasks empty_db).
  repeat split; constructor.
Defined.

(** X2. Along any history of store calls, no two stored users share an
    email. *)
Theorem emails_stay_unique (history : list (datetime * request)) (db : Db) :
  emails_unique db -> emails_unique (replay history db).
Proof. revert db. apply replay_invariant. apply emails_unique_serve. Qed.

Lemma emails_stay_unique_witness : emails_unique db_two_tasks.
Proof. apply (emails_stay_unique history_two_tasks empty_db). constructor. Defined.

(** X3. Along any history of store calls, every stored task is owned by
    a stored user. *)
Theorem owners_always_exist (history : list (datetime * request)) (db : Db) :
  owners_exist db -> owners_exist (replay history db).
Proof. revert db. apply replay_invariant. apply owners_exist_serve. Qed.

Lemma owners_always_exist_witness : owners_exist db_two_tasks.
Proof. apply (owners_always_exist history_two_tasks empty_db). constructor. Defined.

(** X4. Under a clock that does not go backwards, no stored task is
    created in the future and none is updated before its creation. *)
Theorem timestamps_stay_in_order (history : list (datetime * request))
    (db : Db) (clk now : datetime) :
  timestamps_ok clk db ->
  StronglySorted Z.le (clk :: history.*1 ++ [now]) ->
  timestamps_ok now (replay history db).
Proof. apply timestamps_ok_replay_from. Qed.

Lemma timestamps_stay_in_order_witness : timestamps_ok 40 db_two_tasks.
Proof.
  apply (timestamps_stay_in_order history_two_tasks empty_db 0 40).
  - constructor.
  - simpl. repeat constructor; lia.
Defined.

(** X5. Users are never removed nor changed: after any history the
    [users] table starts with the rows it had, and a user found under a
    key is still found under it. *)
Theorem users_only_grow (history : list (datetime * request)) (db : Db) :
  users db `prefix_of` users (replay history db) /\
  forall k u,
    UserService.get_user_by_id k db = (Ok (Some u), db) ->
    UserService.get_user_by_id k (replay history db)
    = (Ok (Some u), replay history db).
Proof.
  assert (Hpre : users db `prefix_of` users (replay history db)).
  { revert db. induction history as [|[now r] history IH]; intros db; [done|].
    rewrite replay_cons. etrans; [apply (serve_users_prefix now r)|apply IH]. }
  split; [done|]. intros k u. rewrite !get_user_by_id_eq.
  intros [= Hu]. do 2 f_equal. unfold lookup_user in *.
  destruct Hpre as [l ->]. rewrite filter_app.
  destruct (filter _ (users db)); [done|]. done.
Qed.

Lemma users_only_grow_witness :
  UserService.get_user_by_id 1 (replay history_two_tasks db_one_user)
  = (Ok (Some (User.mk (Some 1) "Test User" "test@example.com" true 10)),
     replay history_two_tasks db_one_user).
Proof.
  destruct (users_only_grow history_two_tasks db_one_user) as [_ H].
  apply H. reflexivity.
Defined.

(** X6. No call changes the primary key, the owner or the creation time
    of a task: a task found under [k] before and after a call agrees on
    [id], [user_id] and [created_at]. *)
Theorem task_identity_is_kept (now : datetime) (r : request) (k : Z) (db : Db)
    (x x' : Task.t) :
  TaskService.get_task_by_id k db = (Ok (Some x), db) ->
  TaskService.get_task_by_id k (serve now r db) = (Ok (Some x'), serve now r db) ->
  Task.id x' = Task.id x /\
  Task.user_id x' = Task.user_id x /\
  Task.created_at x' = Task.created_at x.
Proof.
  rewrite !get_task_by_id_Some. unfold lookup_task. intros Hx Hx'.
  destruct (serve_tasks now r db)
    as [E|[(y & u & E & _)|[(k0 & x0 & x0' & E & Hx0 & Hid & Hown & Hcr & _)|[k0 E]]]];
    rewrite E in Hx'.
  - rewrite Hx in Hx'. by injection Hx' as <-.
  - rewrite filter_app in Hx'.
    destruct (filter _ (tasks db)); [done|]. cbn in Hx, Hx'. by simplify_eq.
  - destruct (decide (k = k0)) as [->|Hne].
    + rewrite (get_write_back Task.id _ k0 x0' x0 Hid Hx0) in Hx'.
      unfold lookup_task in Hx0. rewrite Hx in Hx0.
      injection Hx0 as <-. injection Hx' as <-.
      destruct (get_has_id _ _ _ _ Hx) as [Hk _]. by rewrite Hid, Hk.
    + rewrite filter_write_back_ne in Hx' by done.
      rewrite Hx in Hx'. by injection Hx' as <-.
  - destruct (decide (k = k0)) as [->|Hne].
    + by rewrite get_after_delete in Hx'.
    + rewrite get_other_after_delete in Hx' by done.
      rewrite Hx in Hx'. by injection Hx' as <-.
Qed.

Lemma task_identity_is_kept_witness :
  exists x',
    TaskService.get_task_by_id 2 (serve 40 (ToggleTaskCompletion 2) db_two_tasks)
    = (Ok (Some x'), serve 40 (ToggleTaskCompletion 2) db_two_tasks) /\
    Task.user_id x' = 1 /\ Task.created_at x' = 30.
Proof.
  eexists. split; [reflexivity|].
  destruct (task_identity_is_kept 40 (ToggleTaskCompletion 2) 2 db_two_tasks task2
              (toggled_task 40 task2) eq_refl eq_refl) as (_ & Hu & Hc).
  split; [exact Hu|exact Hc].
Defined.

(** ** Creating rows *)

(** X7. For a request whose [user_id] is the key of a stored user,
    [create_task] returns a task carrying the title, description and
    owner of the request, not completed, created at the clock reading,
    never updated, under a key no stored task had.  The task is appended
    to the table, is found under its key afterwards, and nothing else
    changes. *)
Theorem create_task_success (now : datetime) (task_data : TaskCreate.t) (db : Db)
    (u : User.t) :
  UserService.get_user_by_id (TaskCreate.user_id task_data) db = (Ok (Some u), db) ->
  exists (x : Task.t) (k : Z) (db' : Db),
    TaskService.create_task now task_data db = (Ok (Some x), db') /\
    x = Task.mk (Some k) (TaskCreate.title task_data)
          (TaskCreate.description task_data) false
          (TaskCreate.user_id task_data) now None /\
    TaskService.get_task_by_id k db = (Ok None, db) /\
    TaskService.get_task_by_id k db' = (Ok (Some x), db') /\
    tasks db' = tasks db ++ [x] /\
    users db' = users db /\
    forall k', k' <> k ->
      fst (TaskService.get_task_by_id k' db') = fst (TaskService.get_task_by_id k' db).
Proof.
  rewrite get_user_by_id_eq. intros [= Hu].
  exists (created_task now task_data db), (next_id (Task.id <$> tasks db)),
    (set_tasks (tasks db ++ [created_task now task_data db]) db).
  rewrite create_task_eq, Hu, !get_task_by_id_eq. split; [reflexivity|].
  unfold lookup_task. cbn [tasks set_tasks users].
  rewrite filter_app, next_id_fresh. repeat split.
  - cbn. by rewrite decide_True.
  - intros k' Hne. rewrite !get_task_by_id_eq. cbn [fst]. f_equal.
    unfold lookup_task. cbn [tasks set_tasks]. rewrite filter_app.
    rewrite (filter_cons_False _ (created_task _ _ _)); [by rewrite app_nil_r|].
    unfold has_id. cbn. congruence.
Qed.

Lemma create_task_success_witness :
  exists x db',
    TaskService.create_task 50 (TaskCreate.mk "Task 3" "third" 1) db_two_tasks
    = (Ok (Some x), db') /\
    TaskService.get_task_by_id 3 db' = (Ok (Some x), db').
Proof.
  destruct (create_task_success 50 (TaskCreate.mk "Task 3" "third" 1) db_two_tasks
              (User.mk (Some 1) "Test User" "test@example.com" true 10) eq_refl)
    as (x & k & db' & Hc & -> & _ & Hg & _).
  eexists _, db'. split; [exact Hc|].
  injection Hc as <- <-. reflexivity.
Defined.

(** X8. For a request whose email no stored user has, [create_user]
    returns an active user with the name and email of the request,
    created at the clock reading, under a key no stored user had.  The
    user is appended to the table and is afterwards found by its email
    and by its key and listed last by [get_all_users]; the tasks are
    untouched. *)
Theorem create_user_success (now : datetime) (user_data : UserCreate.t) (db : Db) :
  UserService.get_user_by_email (UserCreate.email user_data) db = (Ok None, db) ->
  exists (u : User.t) (k : Z) (db' : Db),
    UserService.create_user now user_data db = (Ok (Some u), db') /\
    u = User.mk (Some k) (UserCreate.name user_data) (UserCreate.email user_data)
          true now /\
    UserService.get_user_by_id k db = (Ok None, db) /\
    UserService.get_user_by_id k db' = (Ok (Some u), db') /\
    UserService.get_user_by_email (UserCreate.email user_data) db' = (Ok (Some u), db') /\
    (exists l, UserService.get_all_users db = (Ok l, db) /\
               UserService.get_all_users db' = (Ok (l ++ [u]), db')) /\
    tasks db' = tasks db.
Proof.
  rewrite get_user_by_email_eq. intros [= He].
  exists (created_user now user_data db), (next_id (User.id <$> users db)),
    (set_users (users db ++ [created_user now user_data db]) db).
  rewrite create_user_eq, He, !get_user_by_id_eq, get_user_by_email_eq.
  split; [reflexivity|].
  unfold lookup_user, lookup_email in *. cbn [users set_users tasks].
  rewrite !filter_app, next_id_fresh.
  apply head_None in He. rewrite He. repeat split.
  - cbn. by rewrite decide_True.
  - cbn. by rewrite decide_True.
  - by exists (users db).
Qed.

Lemma create_user_success_witness :
  exists u db',
    UserService.create_user 60 (UserCreate.mk "User 2" "user2@example.com") db_one_user
    = (Ok (Some u), db') /\
    UserService.get_user_by_email "user2@example.com" db' = (Ok (Some u), db').
Proof.
  destruct (create_user_success 60 (UserCreate.mk "User 2" "user2@example.com")
              db_one_user eq_refl)
    as (u & k & db' & Hc & _ & _ & _ & He & _).
  exists u, db'. split; [exact Hc|exact He].
Defined.

(** ** Tasks that are not there, and fields passed as None *)

(** X9. For a key under which no task is stored, [update_task] and
    [toggle_task_completion] return [None], whatever the update holds,
    and leave the database as it was. *)
Theorem missing_task_is_soft_failure (now : datetime) (k : Z)
    (task_data : TaskUpdate.t) (db : Db) :
  TaskService.get_task_by_id k db = (Ok None, db) ->
  TaskService.update_task now k task_data db = (Ok None, db) /\
  TaskService.toggle_task_completion now k db = (Ok None, db).
Proof.
  rewrite get_task_by_id_None. intros Hk.
  by rewrite update_task_eq, toggle_task_completion_eq, Hk.
Qed.

Lemma missing_task_is_soft_failure_witness :
  TaskService.update_task 50 999 (TaskUpdate.mk (Supplied (Some "New Title")) Unset Unset)
    db_two_tasks = (Ok None, db_two_tasks) /\
  TaskService.toggle_task_completion 50 999 db_two_tasks = (Ok None, db_two_tasks).
Proof. apply missing_task_is_soft_failure. reflexivity. Defined.

(** X10. For a stored task, an update that passes [None] for one of
    its fields raises [IntegrityError] and leaves the database as it
    was, also the fields the same update supplied with a value. *)
Theorem update_task_passing_None_raises (now : datetime) (k : Z)
    (task_data : TaskUpdate.t) (db : Db) (x : Task.t) :
  TaskService.get_task_by_id k db = (Ok (Some x), db) ->
  TaskUpdate.title task_data = Supplied None \/
  TaskUpdate.description task_data = Supplied None \/
  TaskUpdate.completed task_data = Supplied None ->
  TaskService.update_task now k task_data db = (Raise IntegrityError, db).
Proof.
  rewrite get_task_by_id_Some. intros Hx Hnone.
  rewrite update_task_eq, Hx.
  assert (Hp : passes_none task_data = true).
  { unfold passes_none.
    destruct Hnone as [-> | [-> | ->]]; cbn; rewrite ?orb_true_r; done. }
  by rewrite Hp.
Qed.

Lemma update_task_passing_None_raises_witness :
  TaskService.update_task 50 1
    (TaskUpdate.mk (Supplied (Some "New Title")) Unset (Supplied None)) db_two_tasks
  = (Raise IntegrityError, db_two_tasks).
Proof.
  apply (update_task_passing_None_raises 50 1 _ db_two_tasks task1).
  - reflexivity.
  - right; right. reflexivity.
Defined.

(** ** How the operations compose *)

(** X11. Toggling a stored task is the update that supplies only
    [completed], with the negation of the stored flag: same result and
    same database. *)
Theorem toggle_is_update_of_completed (now : datetime) (k : Z) (db : Db) (x : Task.t) :
  TaskService.get_task_by_id k db = (Ok (Some x), db) ->
  TaskService.toggle_task_completion now k db
  = TaskService.update_task now k
      {| TaskUpdate.title := Unset;
         TaskUpdate.description := Unset;
         TaskUpdate.completed := Supplied (Some (negb (Task.completed x))) |} db.
Proof.
  rewrite get_task_by_id_Some. intros Hx.
  by rewrite toggle_task_completion_eq, update_task_eq, Hx.
Qed.

Lemma toggle_is_update_of_completed_witness :
  TaskService.toggle_task_completion 50 2 db_filtering
  = TaskService.update_task 50 2
      (TaskUpdate.mk Unset Unset (Supplied (Some false))) db_filtering.
Proof.
  apply (toggle_is_update_of_completed 50 2 db_filtering task_done). reflexivity.
Defined.

(** X12. Two updates of a stored task in a row, neither passing
    [None]: each field ends with the value of the second update when it
    supplies one, else with that of the first when it supplies one, else
    with the stored value; [updated_at] is the second clock reading. *)
Theorem update_task_last_writer_wins (now1 now2 : datetime) (k : Z)
    (d1 d2 : TaskUpdate.t) (db : Db) (x : Task.t) :
  TaskService.get_task_by_id k db = (Ok (Some x), db) ->
  passes_none d1 = false ->
  passes_none d2 = false ->
  exists (x1 x2 : Task.t) (db1 db2 : Db),
    TaskService.update_task now1 k d1 db = (Ok (Some x1), db1) /\
    TaskService.update_task now2 k d2 db1 = (Ok (Some x2), db2) /\
    Task.title x2 =
      match TaskUpdate.title d2, TaskUpdate.title d1 with
      | Supplied (Some v), _ => v
      | _, Supplied (Some v) => v
      | _, _ => Task.title x
      end /\
    Task.description x2 =
      match TaskUpdate.description d2, TaskUpdate.description d1 with
      | Supplied (Some v), _ => v
      | _, Supplied (Some v) => v
      | _, _ => Task.description x
      end /\
    Task.completed x2 =
      match TaskUpdate.completed d2, TaskUpdate.completed d1 with
      | Supplied (Some v), _ => v
      | _, Supplied (Some v) => v
      | _, _ => Task.completed x
      end /\
    Task.updated_at x2 = Some now2 /\
    TaskService.get_task_by_id k db2 = (Ok (Some x2), db2).
Proof.
  rewrite get_task_by_id_Some. intros Hx H1 H2.
  destruct (get_has_id _ _ _ _ Hx) as [Hk _].
  destruct (update_task_existing now1 k d1 db x Hx H1) as (Hu1 & Hg1 & _).
  apply get_task_by_id_Some in Hg1.
  destruct (update_task_existing now2 k d2 _ _ Hg1 H2) as (Hu2 & Hg2 & _).
  eexists _, _, _, _. split; [exact Hu1|]. split; [exact Hu2|].
  split; [|split; [|split; [|split; [done|exact Hg2]]]]; cbn.
  - by destruct (TaskUpdate.title d2) as [|[?|]], (TaskUpdate.title d1) as [|[?|]].
  - by destruct (TaskUpdate.description d2) as [|[?|]],
         (TaskUpdate.description d1) as [|[?|]].
  - by destruct (TaskUpdate.completed d2) as [|[?|]],
         (TaskUpdate.completed d1) as [|[?|]].
Qed.

Lemma update_task_last_writer_wins_witness :
  exists x1 x2 db1 db2,
    TaskService.update_task 50 1 (TaskUpdate.mk (Supplied (Some "A")) (Supplied (Some "a")) Unset)
      db_original = (Ok (Some x1), db1) /\
    TaskService.update_task 60 1 (TaskUpdate.mk (Supplied (Some "B")) Unset Unset) db1
    = (Ok (Some x2), db2) /\
    Task.title x2 = "B" /\ Task.description x2 = "a" /\ Task.completed x2 = false.
Proof.
  destruct (update_task_last_writer_wins 50 60 1
              (TaskUpdate.mk (Supplied (Some "A")) (Supplied (Some "a")) Unset)
              (TaskUpdate.mk (Supplied (Some "B")) Unset Unset)
              db_original task_original eq_refl eq_refl eq_refl)
    as (x1 & x2 & db1 & db2 & H1 & H2 & Ht & Hd & Hc & _).
  exists x1, x2, db1, db2. repeat split; assumption.
Defined.

(** X13. After [delete_task], successful or not, a second
    [delete_task] of the same key returns [False] and changes nothing. *)
Theorem delete_task_twice (k : Z) (db : Db) :
  exists (b : bool) (db1 : Db),
    TaskService.delete_task k db = (Ok b, db1) /\
    TaskService.delete_task k db1 = (Ok false, db1).
Proof.
  rewrite delete_task_eq. destruct (lookup_task k db) eqn:Hk.
  - eexists _, _. split; [reflexivity|].
    rewrite delete_task_eq. unfold lookup_task. cbn [tasks set_tasks].
    by rewrite get_after_delete.
  - exists false, db. split; [done|]. by rewrite delete_task_eq, Hk.
Qed.

(** ** Listings *)

Lemma elem_of_get_user_tasks uid c db :
  exists l,
    TaskService.get_user_tasks uid c db = (Ok l, db) /\
    forall x, x ∈ l <-> x ∈ tasks db /\ Task.user_id x = uid /\ passes c x.
Proof.
  destruct (get_user_tasks_Permutation uid c db) as (l & Hl & Hp & _).
  exists l. split; [done|]. intros x. rewrite Hp. unfold selected.
  rewrite list_elem_of_filter. tauto.
Qed.

Lemma split_by_completed (own : list Task.t) :
  own ≡ₚ filter (fun x => Task.completed x = true) own
         ++ filter (fun x => Task.completed x = false) own.
Proof.
  induction own as [|x own IH]; [done|].
  destruct (Task.completed x) eqn:Hc.
  - rewrite filter_cons_True, filter_cons_False by congruence. cbn. by f_equiv.
  - rewrite filter_cons_False, filter_cons_True by congruence.
    rewrite <- Permutation_middle. by f_equiv.
Qed.

(** X14. The unfiltered listing of a user holds exactly the tasks of
    the completed listing and of the active listing together, so its
    length is the sum of theirs. *)
Theorem get_user_tasks_partition (user_id : Z) (db : Db) :
  exists l lc la : list Task.t,
    TaskService.get_user_tasks user_id None db = (Ok l, db) /\
    TaskService.get_user_tasks user_id (Some true) db = (Ok lc, db) /\
    TaskService.get_user_tasks user_id (Some false) db = (Ok la, db) /\
    l ≡ₚ lc ++ la /\
    length l = (length lc + length la)%nat.
Proof.
  rewrite !get_user_tasks_eq. eexists _, _, _.
  split; [reflexivity|]. split; [reflexivity|]. split; [reflexivity|].
  assert (Hp : merge_sort (desc Task.created_at)
                 (filter (fun x => Task.user_id x = user_id) (tasks db))
               ≡ₚ merge_sort (desc Task.created_at)
                    (filter (fun x => Task.completed x = true)
                       (filter (fun x => Task.user_id x = user_id) (tasks db)))
                  ++ merge_sort (desc Task.created_at)
                       (filter (fun x => Task.completed x = false)
                          (filter (fun x => Task.user_id x = user_id) (tasks db)))).
  { rewrite !merge_sort_Permutation. apply split_by_completed. }
  split; [exact Hp|]. rewrite <- length_app. by apply Permutation_length.
Qed.

(** X15. A listing is empty, and still a normal result, exactly when
    no stored task of that user passes the filter. *)
Theorem get_user_tasks_empty (user_id : Z) (completed : option bool) (db : Db) :
  TaskService.get_user_tasks user_id completed db = (Ok [], db) <->
  Forall (fun x => ~ (Task.user_id x = user_id /\ passes completed x)) (tasks db).
Proof.
  destruct (elem_of_get_user_tasks user_id completed db) as (l & Hl & Hin).
  rewrite Hl, Forall_forall. split.
  - intros [= ->] x Hx Hp. apply (elem_of_nil x). apply Hin. tauto.
  - intros Hnone. do 2 f_equal. destruct l as [|x l]; [done|].
    destruct (Hin x) as [Hx _]. destruct Hx as (? & ? & ?); [left|].
    by destruct (Hnone x).
Qed.

Lemma get_user_tasks_empty_witness :
  TaskService.get_user_tasks 2 None db_two_tasks = (Ok [], db_two_tasks).
Proof.
  apply get_user_tasks_empty.
  repeat constructor; cbn; intros [? _]; lia.
Defined.

(** X16. Creating a task for one user leaves every listing of every
    other user exactly as it was. *)
Theorem create_task_leaves_other_listings (now : datetime) (task_data : TaskCreate.t)
    (db : Db) (user_id : Z) (completed : option bool) :
  user_id <> TaskCreate.user_id task_data ->
  exists (r : option Task.t) (db' : Db) (l : list Task.t),
    TaskService.create_task now task_data db = (Ok r, db') /\
    TaskService.get_user_tasks user_id completed db = (Ok l, db) /\
    TaskService.get_user_tasks user_id completed db' = (Ok l, db').
Proof.
  intros Hne. destruct (create_task_appends now task_data db)
    as (r & db' & Hc & _ & Ht & Hr).
  exists r, db'. eexists. split; [done|].
  rewrite !get_user_tasks_eq. split; [reflexivity|]. do 2 f_equal.
  assert (Hf : filter (fun x => Task.user_id x = user_id) (tasks db')
               = filter (fun x => Task.user_id x = user_id) (tasks db)).
  { rewrite Ht, filter_app.
    destruct r as [x|]; cbn [from_option]; [|by rewrite filter_nil, app_nil_r].
    rewrite filter_cons_False; [by rewrite filter_nil, app_nil_r|].
    rewrite (Hr x eq_refl). congruence. }
  by rewrite Hf.
Qed.

Lemma create_task_leaves_other_listings_witness :
  exists r db' l,
    TaskService.create_task 50 (TaskCreate.mk "User 2 Task" "" 2) db_two_tasks = (Ok r, db') /\
    TaskService.get_user_tasks 1 None db_two_tasks = (Ok l, db_two_tasks) /\
    TaskService.get_user_tasks 1 None db' = (Ok l, db').
Proof.
  apply (create_task_leaves_other_listings 50 _ db_two_tasks 1 None).
  simpl. lia.
Defined.

(** X17. After a task is deleted, a listing holds exactly the tasks it
    held before whose key is not the deleted one. *)
Theorem delete_task_removes_from_listings (k : Z) (db : Db) (user_id : Z)
    (completed : option bool) :
  exists (b : bool) (db' : Db) (l l' : list Task.t),
    TaskService.delete_task k db = (Ok b, db') /\
    TaskService.get_user_tasks user_id completed db = (Ok l, db) /\
    TaskService.get_user_tasks user_id completed db' = (Ok l', db') /\
    forall x, x ∈ l' <-> x ∈ l /\ Task.id x <> Some k.
Proof.
  destruct (elem_of_get_user_tasks user_id completed db) as (l & Hl & Hin).
  rewrite delete_task_eq. destruct (lookup_task k db) eqn:Hk.
  - destruct (elem_of_get_user_tasks user_id completed
                (set_tasks (filter (fun r => ¬ has_id Task.id k r) (tasks db)) db))
      as (l' & Hl' & Hin').
    eexists _, _, l, l'. split; [reflexivity|]. split; [done|]. split; [done|].
    intros x. rewrite Hin', Hin. cbn [tasks set_tasks].
    rewrite list_elem_of_filter. unfold has_id. tauto.
  - exists false, db, l, l. split; [done|]. split; [done|]. split; [done|].
    intros x. split; [|tauto]. intros Hx. split; [done|].
    apply Hin in Hx as [Hx _].
    apply get_None in Hk. rewrite Forall_forall in Hk. by apply Hk.
Qed.

Lemma write_back_has_id {A} (id : A -> option Z) k (x y : A) rows :
  y ∈ write_back id k x rows -> id y = Some k -> y = x.
Proof.
  unfold write_back. intros Hy Hk.
  apply list_elem_of_fmap in Hy as (r & -> & Hr).
  case_decide as Hd; [done|]. by destruct Hd.
Qed.

(** X18. After a toggle, the task is in the listing of its owner for
    its new flag and in the unfiltered one, and the listing for its old
    flag holds no task under that key. *)
Theorem toggle_moves_between_listings (now : datetime) (k : Z) (db : Db) (x : Task.t) :
  TaskService.get_task_by_id k db = (Ok (Some x), db) ->
  exists (x1 : Task.t) (db1 : Db) (l lnew lold : list Task.t),
    TaskService.toggle_task_completion now k db = (Ok (Some x1), db1) /\
    TaskService.get_user_tasks (Task.user_id x) None db1 = (Ok l, db1) /\
    TaskService.get_user_tasks (Task.user_id x) (Some (negb (Task.completed x))) db1
    = (Ok lnew, db1) /\
    TaskService.get_user_tasks (Task.user_id x) (Some (Task.completed x)) db1
    = (Ok lold, db1) /\
    x1 ∈ l /\ x1 ∈ lnew /\ Forall (fun y => Task.id y <> Some k) lold.
Proof.
  rewrite get_task_by_id_Some. intros Hx.
  destruct (get_has_id _ _ _ _ Hx) as [Hk Hmem].
  set (x1 := toggled_task now x).
  set (db1 := set_tasks (write_back Task.id k x1 (tasks db)) db).
  destruct (elem_of_get_user_tasks (Task.user_id x) None db1) as (l & Hl & Hin).
  destruct (elem_of_get_user_tasks (Task.user_id x) (Some (negb (Task.completed x))) db1)
    as (lnew & Hlnew & Hinnew).
  destruct (elem_of_get_user_tasks (Task.user_id x) (Some (Task.completed x)) db1)
    as (lold & Hlold & Hinold).
  exists x1, db1, l, lnew, lold.
  rewrite toggle_task_completion_eq, Hx.
  assert (Hx1 : x1 ∈ tasks db1).
  { pose proof (lookup_task_write_back k x x1 db Hk Hx) as H1.
    by destruct (get_has_id _ _ _ _ H1). }
  split; [done|]. split; [done|]. split; [done|]. split; [done|].
  split; [|split].
  - apply Hin. by repeat split.
  - apply Hinnew. by repeat split.
  - rewrite Forall_forall. intros y Hy Hid.
    apply Hinold in Hy as (Hy & _ & Hc). cbn in Hc.
    apply write_back_has_id in Hy; [|done]. subst y.
    cbn in Hc. by destruct (Task.completed x).
Qed.

Lemma toggle_moves_between_listings_witness :
  exists x1 db1 lnew lold,
    TaskService.toggle_task_completion 50 1 db_filtering = (Ok (Some x1), db1) /\
    TaskService.get_user_tasks 1 (Some true) db1 = (Ok lnew, db1) /\
    TaskService.get_user_tasks 1 (Some false) db1 = (Ok lold, db1) /\
    x1 ∈ lnew /\ Forall (fun y => Task.id y <> Some 1) lold.
Proof.
  destruct (toggle_moves_between_listings 50 1 db_filtering task_active eq_refl)
    as (x1 & db1 & l & lnew & lold & Ht & _ & Hn & Ho & _ & Hin & Hout).
  exists x1, db1, lnew, lold. repeat split; assumption.
Defined.

(** ** Lookups in a well-formed database *)

(** X19. When the stored tasks have pairwise different primary keys,
    every task of a listing is the task [get_task_by_id] returns for its
    key. *)
Theorem listed_task_is_found_by_id (user_id : Z) (completed : option bool) (db : Db) :
  keys_ok Task.id (tasks db) ->
  exists l : list Task.t,
    TaskService.get_user_tasks user_id completed db = (Ok l, db) /\
    forall x, x ∈ l ->
      exists k, Task.id x = Some k /\
                TaskService.get_task_by_id k db = (Ok (Some x), db).
Proof.
  intros [Hsome Hnodup].
  destruct (elem_of_get_user_tasks user_id completed db) as (l & Hl & Hin).
  exists l. split; [done|]. intros x Hx. apply Hin in Hx as [Hx _].
  rewrite Forall_forall in Hsome. destruct (Hsome x Hx) as [k Hk].
  exists k. split; [done|]. rewrite get_task_by_id_eq. do 2 f_equal.
  by apply lookup_by_key.
Qed.

Lemma listed_task_is_found_by_id_witness :
  exists l,
    TaskService.get_user_tasks 1 None db_two_tasks = (Ok l, db_two_tasks) /\
    forall x, x ∈ l ->
      exists k, Task.id x = Some k /\
                TaskService.get_task_by_id k db_two_tasks = (Ok (Some x), db_two_tasks).
Proof.
  apply listed_task_is_found_by_id. split.
  - repeat constructor; by eexists.
  - by refine (bool_decide_unpack _ _).
Defined.

(** X20. When the stored users have pairwise different primary keys
    and emails, the two point lookups agree: the user found under a key
    is the user found under its email, and the user found under an email
    is the user found under its key. *)
Theorem user_lookups_agree (db : Db) :
  keys_ok User.id (users db) ->
  emails_unique db ->
  (forall k u,
      UserService.get_user_by_id k db = (Ok (Some u), db) ->
      UserService.get_user_by_email (User.email u) db = (Ok (Some u), db)) /\
  (forall e u,
      UserService.get_user_by_email e db = (Ok (Some u), db) ->
      exists k, User.id u = Some k /\
                UserService.get_user_by_id k db = (Ok (Some u), db)).
Proof.
  intros [Hsome Hnodup] Hemails. split.
  - intros k u. rewrite get_user_by_id_eq, get_user_by_email_eq. intros [= Hu].
    apply get_has_id in Hu as [_ Hin]. do 2 f_equal.
    unfold lookup_email. by rewrite filter_unique_key.
  - intros e u. rewrite get_user_by_email_eq. intros [= Hu].
    apply lookup_email_Some in Hu as [_ Hin].
    rewrite Forall_forall in Hsome. destruct (Hsome u Hin) as [k Hk].
    exists k. split; [done|]. rewrite get_user_by_id_eq. do 2 f_equal.
    by apply lookup_by_key.
Qed.

Lemma user_lookups_agree_witness :
  UserService.get_user_by_email "user2@example.com" db_two_users
  = (Ok (Some (User.mk (Some 2) "User 2" "user2@example.com" true 11)), db_two_users).
Proof.
  destruct (user_lookups_agree db_two_users) as [Hid _].
  - split; [repeat constructor; by eexists|by refine (bool_decide_unpack _ _)].
  - by refine (bool_decide_unpack _ _).
  - apply (Hid 2 (User.mk (Some 2) "User 2" "user2@example.com" true 11)). reflexivity.
Defined.

(** X21. When every stored user has a primary key and no two share
    one, [get_or_create_default_user] returns a user that has a primary
    key, under which [get_user_by_id] then finds that user. *)
Theorem default_user_has_id (now : datetime) (db : Db) :
  keys_ok User.id (users db) ->
  exists (u : User.t) (k : Z) (db' : Db),
    UserService.get_or_create_default_user now db = (Ok u, db') /\
    User.id u = Some k /\
    UserService.get_user_by_id k db' = (Ok (Some u), db').
Proof.
  intros Hkeys. rewrite get_or_create_default_user_eq.
  destruct (lookup_email _ db) as [u|] eqn:Hu.
  - apply lookup_email_Some in Hu as [_ Hin].
    destruct Hkeys as [Hsome Hnodup].
    rewrite Forall_forall in Hsome. destruct (Hsome u Hin) as [k Hk].
    exists u, k, db. split; [done|]. split; [done|].
    rewrite get_user_by_id_eq. do 2 f_equal. by apply lookup_by_key.
  - cbv zeta. eexists _, _, _. split; [reflexivity|]. split; [reflexivity|].
    rewrite get_user_by_id_eq. do 2 f_equal.
    unfold lookup_user. cbn [users set_users].
    rewrite filter_app, next_id_fresh. cbn. by rewrite decide_True.
Qed.

Lemma default_user_has_id_witness :
  exists u k db',
    UserService.get_or_create_default_user 70 db_two_users = (Ok u, db') /\
    User.id u = Some k /\
    UserService.get_user_by_id k db' = (Ok (Some u), db').
Proof.
  apply default_user_has_id.
  split; [repeat constructor; by eexists|by refine (bool_decide_unpack _ _)].
Defined.

Lemma default_user_id now db :
  keys_ok User.id (users db) ->
  exists u k db',
    UserService.get_or_create_default_user now db = (Ok u, db') /\
    User.id u = Some k /\ tasks db' = tasks db.
Proof.
  intros [Hsome _]. rewrite get_or_create_default_user_eq.
  destruct (lookup_email _ db) as [u|] eqn:Hu.
  - apply lookup_email_Some in Hu as [_ Hin].
    rewrite Forall_forall in Hsome. destruct (Hsome u Hin) as [k Hk].
    by exists u, k, db.
  - cbv zeta. by eexists _, _, _.
Qed.

(** ** The handlers of the page *)

Section todo_app_properties.
Context (strip : string -> string).
Context (strftime : datetime -> string -> string).
Context (str_exn : exn -> string).
Context (str_validation_error : string -> string -> string).
Import todo_app.

Lemma get_user_tasks_listing uid c db :
  TaskService.get_user_tasks uid c db = (Ok (listing uid c db), db).
Proof. apply get_user_tasks_eq. Qed.

Lemma update_statistics_eq user uid p db :
  User.id user = Some uid ->
  update_statistics str_exn user (p, db)
  = (set_stats_container
       [stat_card "p-4 bg-blue-50 border border-blue-200 rounded-lg"
          (pretty (length (listing uid None db))) "text-2xl font-bold text-blue-600"
          "Total Tasks" "text-sm text-blue-500 uppercase tracking-wider";
        stat_card "p-4 bg-orange-50 border border-orange-200 rounded-lg"
          (pretty (length (listing uid (Some false) db))) "text-2xl font-bold text-orange-600"
          "Active" "text-sm text-orange-500 uppercase tracking-wider";
        stat_card "p-4 bg-green-50 border border-green-200 rounded-lg"
          (pretty (length (listing uid (Some true) db))) "text-2xl font-bold text-green-600"
          "Completed" "text-sm text-green-500 uppercase tracking-wider"] p, db).
Proof.
  intros Hid. unfold update_statistics. rewrite Hid.
  by rewrite !get_user_tasks_listing.
Qed.

Lemma show_tasks_eq user uid c p db :
  User.id user = Some uid ->
  show_tasks strftime str_exn user c (p, db)
  = update_statistics str_exn user
      (set_tasks_container (rendered strftime c (listing uid c db)) p, db).
Proof.
  intros Hid. unfold show_tasks. rewrite Hid, get_user_tasks_listing.
  unfold rendered. by destruct (listing uid c db).
Qed.

Lemma show_tasks_fields user uid c p db :
  User.id user = Some uid ->
  exists p',
    show_tasks strftime str_exn user c (p, db) = (p', db) /\
    tasks_container p' = rendered strftime c (listing uid c db) /\
    task_title p' = task_title p /\
    task_description p' = task_description p /\
    notifications p' = notifications p /\
    log p' = log p.
Proof.
  intros Hid. rewrite (show_tasks_eq _ uid), (update_statistics_eq _ uid) by done.
  eexists. split; [reflexivity|]. done.
Qed.





(** X25. A click on the toggle or on the delete button of a task that
    is no longer stored only emits the "Task not found" warning: the
    database and the rest of the page stay as they were. *)
Theorem click_on_missing_task (user : User.t) (now : datetime) (k : Z)
    (p : Page) (db : Db) :
  TaskService.get_task_by_id k db = (Ok None, db) ->
  toggle_task strftime str_exn user now k (p, db)
  = (ui_notify "Task not found" "warning" p, db) /\
  delete_task strftime str_exn user k (p, db)
  = (ui_notify "Task not found" "warning" p, db).
Proof.
  rewrite get_task_by_id_None. intros Hk.
  unfold toggle_task, delete_task.
  by rewrite toggle_task_completion_eq, delete_task_eq, Hk.
Qed.

(** X26. A click on the toggle button of a stored task flips its flag
    in the database, announces "Task completed" or "Task marked as
    active" according to the new flag, and shows the unfiltered listing
    of the user, whichever filter was shown before. *)
Theorem toggle_task_success (user : User.t) (uid : Z) (now : datetime) (k : Z)
    (p : Page) (db : Db) (x : Task.t) :
  User.id user = Some uid ->
  TaskService.get_task_by_id k db = (Ok (Some x), db) ->
  exists (x1 : Task.t) (p' : Page) (db1 : Db) (l : list Task.t),
    toggle_task strftime str_exn user now k (p, db) = (p', db1) /\
    TaskService.toggle_task_completion now k db = (Ok (Some x1), db1) /\
    Task.completed x1 = negb (Task.completed x) /\
    notifications p' =
      notifications p ++
      [(if Task.completed x then "Task marked as active" else "Task completed",
        "positive")] /\
    TaskService.get_user_tasks uid None db1 = (Ok l, db1) /\
    tasks_container p' =
      match l with
      | [] =>
          [ui_card "w-full p-8 text-center bg-gray-50"
             [ui_icon "task_alt" "3em" "text-gray-300 mb-4";
              ui_label "No tasks found" "text-xl text-gray-500 mb-2";
              ui_label "Create your first task to get started!" "text-gray-400"]]
      | _ => l ≫= create_task_card strftime
      end.
Proof.
  intros Hid. rewrite get_task_by_id_Some. intros Hx.
  set (x1 := toggled_task now x).
  set (db1 := set_tasks (write_back Task.id k x1 (tasks db)) db).
  set (p1 := ui_notify ("Task " +:+ (if Task.completed x1 then "completed"
                                     else "marked as active")) "positive" p).
  destruct (show_tasks_fields user uid None p1 db1 Hid)
    as (p' & Hshow & Hcont & _ & _ & Hn & _).
  exists x1, p', db1, (listing uid None db1).
  split; [|split; [|split; [done|split; [|split]]]].
  - unfold toggle_task. rewrite toggle_task_completion_eq, Hx.
    fold x1 db1 p1. exact Hshow.
  - by rewrite toggle_task_completion_eq, Hx.
  - rewrite Hn. cbn. by destruct (Task.completed x).
  - apply get_user_tasks_listing.
  - exact Hcont.
Qed.

Lemma create_task_card_actions (x : Task.t) :
  create_task_card strftime x ≫= actions
  = match Task.id x with
    | Some k => [on_toggle k; on_delete k]
    | None => []
    end.
Proof.
  unfold create_task_card.
  destruct (Task.completed x), (decide (Task.description x = "")),
    (Task.updated_at x), (Task.id x); reflexivity.
Qed.

(** X27. When the stored tasks have pairwise different primary keys,
    every button [show_tasks] puts on the page toggles or deletes a task
    that is stored under the key it carries and is owned by the user of
    the page. *)
Theorem card_buttons_target_stored_tasks (user : User.t) (uid : Z)
    (completed : option bool) (p : Page) (db : Db) :
  User.id user = Some uid ->
  keys_ok Task.id (tasks db) ->
  exists p' : Page,
    show_tasks strftime str_exn user completed (p, db) = (p', db) /\
    forall a : action,
      a ∈ tasks_container p' ≫= actions ->
      exists (k : Z) (x : Task.t),
        (a = on_toggle k \/ a = on_delete k) /\
        TaskService.get_task_by_id k db = (Ok (Some x), db) /\
        Task.user_id x = uid.
Proof.
  intros Hid [Hsome Hnodup].
  destruct (show_tasks_fields user uid completed p db Hid) as (p' & Hshow & Hcont & _).
  exists p'. split; [done|]. intros a. rewrite Hcont. unfold rendered. intros Ha0.
  assert (Ha : a ∈ (listing uid completed db ≫= create_task_card strftime) ≫= actions).
  { destruct (listing uid completed db); [|done].
    cbn in Ha0. by apply elem_of_nil in Ha0. }
  clear Ha0.
  apply list_elem_of_bind in Ha as (e & Ha & He).
  apply list_elem_of_bind in He as (x & He & Hx).
  assert (Hax : a ∈ create_task_card strftime x ≫= actions)
    by (apply list_elem_of_bind; eauto).
  rewrite create_task_card_actions in Hax.
  unfold listing in Hx. rewrite merge_sort_Permutation in Hx.
  assert (Hx' : x ∈ tasks db /\ Task.user_id x = uid).
  { destruct completed; repeat (apply list_elem_of_filter in Hx as [? Hx]); done. }
  destruct Hx' as [Hin Hown].
  destruct (Task.id x) as [k|] eqn:Hk; [|by apply elem_of_nil in Hax].
  exists k, x. split; [|split; [|done]].
  - rewrite !elem_of_cons, elem_of_nil in Hax. tauto.
  - rewrite get_task_by_id_eq. do 2 f_equal. by apply lookup_by_key.
Qed.



(** X29. On a database whose users have pairwise different primary
    keys, opening the page does not raise and emits no notification and
    no log line; it returns the default user, which has a primary key,
    leaves the tasks as they are, and shows the unfiltered listing of
    that user with an empty form. *)
Theorem todo_page_opens (now : datetime) (db : Db) :
  keys_ok User.id (users db) ->
  exists (user : User.t) (uid : Z) (p : Page) (db' : Db) (l : list Task.t),
    todo_page strftime str_exn now db = (Ok (user, p), db') /\
    UserService.get_or_create_default_user now db = (Ok user, db') /\
    User.id user = Some uid /\
    tasks db' = tasks db /\
    TaskService.get_user_tasks uid None db' = (Ok l, db') /\
    tasks_container p = rendered strftime None l /\
    task_title p = "" /\ task_description p = "" /\
    notifications p = [] /\ log p = [].
Proof.
  intros Hkeys.
  destruct (default_user_id now db Hkeys) as (user & uid & db' & Hg & Hid & Ht).
  destruct (show_tasks_fields user uid None empty_page db' Hid)
    as (p & Hshow & Hcont & Htt & Htd & Hn & Hlog).
  exists user, uid, p, db', (listing uid None db').
  split; [|repeat split; try done].
  unfold todo_page. by rewrite Hg, Hid, Hshow.
Qed.

End todo_app_properties.




Lemma click_on_missing_task_witness :
  todo_app.toggle_task sample_strftime sample_str_exn sample_user 50 999
    (todo_app.empty_page, db_two_tasks)
  = (todo_app.ui_notify "Task not found" "warning" todo_app.empty_page, db_two_tasks) /\
  todo_app.delete_task sample_strftime sample_str_exn sample_user 999
    (todo_app.empty_page, db_two_tasks)
  = (todo_app.ui_notify "Task not found" "warning" todo_app.empty_page, db_two_tasks).
Proof.
  apply (click_on_missing_task sample_strftime sample_str_exn sample_user 50 999).
  reflexivity.
Defined.

Lemma toggle_task_success_witness :
  exists x1 p' db1,
    todo_app.toggle_task sample_strftime sample_str_exn sample_user 50 2
      (todo_app.empty_page, db_two_tasks) = (p', db1) /\
    TaskService.toggle_task_completion 50 2 db_two_tasks = (Ok (Some x1), db1) /\
    todo_app.notifications p' = [("Task completed", "positive")].
Proof.
  destruct (toggle_task_success sample_strftime sample_str_exn sample_user 1 50 2
              todo_app.empty_page db_two_tasks task2 eq_refl eq_refl)
    as (x1 & p' & db1 & l & Ht & Hs & _ & Hn & _).
  exists x1, p', db1. repeat split; assumption.
Defined.

Lemma card_buttons_target_stored_tasks_witness :
  exists p',
    todo_app.show_tasks sample_strftime sample_str_exn sample_user None
      (todo_app.empty_page, db_two_tasks) = (p', db_two_tasks) /\
    forall a, a ∈ todo_app.tasks_container p' ≫= actions ->
      exists k x,
        (a = todo_app.on_toggle k \/ a = todo_app.on_delete k) /\
        TaskService.get_task_by_id k db_two_tasks = (Ok (Some x), db_two_tasks) /\
        Task.user_id x = 1.
Proof.
  apply (card_buttons_target_stored_tasks sample_strftime sample_str_exn sample_user 1
           None todo_app.empty_page db_two_tasks).
  - reflexivity.
  - split; [repeat constructor; by eexists|by refine (bool_decide_unpack _ _)].
Defined.

Lemma todo_page_opens_witness :
  exists user uid p db',
    todo_app.todo_page sample_strftime sample_str_exn 70 db_two_users
    = (Ok (user, p), db') /\
    User.id user = Some uid /\
    todo_app.notifications p = [].
Proof.
  destruct (todo_page_opens sample_strftime sample_str_exn 70 db_two_users)
    as (user & uid & p & db' & l & Hp & _ & Hid & _ & _ & _ & _ & _ & Hn & _).
  - split; [repeat constructor; by eexists|by refine (bool_decide_unpack _ _)].
  - exists user, uid, p, db'. repeat split; assumption.
Defined.
